(** * mc admin prometheus generate

    A shallow embedding of [cmd/admin-prometheus-generate.go]: the scrape
    configuration types and their two renderers, the two process-wide
    configuration values, the bearer-token payload, the version test that
    picks one of the two values, and the command handler that fills the
    picked value in place and prints it.

    Go strings are byte sequences: they are [string] here (a list of
    [ascii], one per byte).  Slices are lists, read and written by index
    with stdpp's [!!] and [<[_:=_]>]; an index outside the slice is a
    run-time panic, written out where the source indexes.  The packages
    the file imports (jwt-go, yaml.v2, colorjson, console, net/url, the
    admin client) and the helpers of package [cmd] that live in other
    files are collaborators: what the handler needs of them is either a
    field of [Collaborators] or a definition whose comment says where its
    behaviour is taken from. *)

From Stdlib Require Import ZArith String Ascii List Lia Bool.
From stdpp Require Import base option list strings gmap.

Open Scope string_scope.
Set Warnings "-register-all".

(** ** Go strings *)

Module GoString.

(** The byte a character stands for. *)
Definition byte_of (c : ascii) : N := N_of_ascii c.

(** [a < b], [a == b], [a > b] on Go strings: the bytes are compared from
    the left, the first difference decides, and a proper prefix is
    smaller (runtime [cmpstring]). *)
Fixpoint cmpstring (a b : string) : comparison :=
  match a, b with
  | EmptyString, EmptyString => Eq
  | EmptyString, String _ _ => Lt
  | String _ _, EmptyString => Gt
  | String x a', String y b' =>
      match N.compare (byte_of x) (byte_of y) with
      | Eq => cmpstring a' b'
      | Lt => Lt
      | Gt => Gt
      end
  end.

(** The Go expression [a < b]. *)
Definition less (a b : string) : bool :=
  match cmpstring a b with Lt => true | _ => false end.

(** Lexical order, as a relation: the order of a dictionary over bytes. *)
Inductive lex_lt : string -> string -> Prop :=
| lex_lt_prefix (y : ascii) (b : string) :
    lex_lt EmptyString (String y b)
| lex_lt_byte (x y : ascii) (a b : string) :
    (byte_of x < byte_of y)%N -> lex_lt (String x a) (String y b)
| lex_lt_next (x : ascii) (a b : string) :
    lex_lt a b -> lex_lt (String x a) (String x b).

(** [strings.Contains(s, v)]: [v] occurs in [s] as it is, byte for byte. *)
Definition Contains (s v : string) : Prop :=
  exists pre post : string, s = pre ++ v ++ post.

(** [strings.HasPrefix(s, p)], computed. *)
Fixpoint HasPrefix (s p : string) {struct p} : bool :=
  match p, s with
  | EmptyString, _ => true
  | String _ _, EmptyString => false
  | String y p', String x s' => if Ascii.eqb x y then HasPrefix s' p' else false
  end.

(** [strings.Contains(s, v)], computed: [v] is a prefix of some suffix
    of [s]. *)
Fixpoint containsb (s v : string) : bool :=
  HasPrefix s v ||
  match s with
  | EmptyString => false
  | String _ s' => containsb s' v
  end.

(** [strings.Join(l, sep)]. *)
Fixpoint Join (l : list string) (sep : string) : string :=
  match l with
  | [] => EmptyString
  | [x] => x
  | x :: l' => x ++ sep ++ Join l' sep
  end.

(** [strings.Repeat(s, n)]. *)
Fixpoint Repeat (s : string) (n : nat) : string :=
  match n with
  | O => EmptyString
  | S n' => s ++ Repeat s n'
  end.

(** The one-byte string of byte [n]. *)
Definition chr (n : nat) : string := String (ascii_of_nat n) EmptyString.

(** Line feed, double quote, backslash and escape. *)
Definition LF : string := chr 10.
Definition DQ : string := chr 34.
Definition BS : string := chr 92.
Definition ESC : string := chr 27.

End GoString.

Import GoString.

(** ** Results of calls that return [(value, error)] *)

(** A Go [error] is kept as its message. *)
Definition error : Type := string.

Inductive result (A : Type) : Type :=
| Ok (a : A)
| Err (e : error).

Arguments Ok {A} a.
Arguments Err {A} e.

(** ** The configuration types (lines 65-114) *)

(** [StatConfig]: the targets of one static configuration. *)
Record StatConfig : Type := mkStatConfig {
  Targets : list string
}.

(** [ScrapeConfig]: one scraping unit. *)
Record ScrapeConfig : Type := mkScrapeConfig {
  JobName : string;
  BearerToken : string;
  MetricsPath : string;
  Scheme : string;
  StaticConfigs : list StatConfig
}.

(** [PrometheusConfig]: the top-level document. *)
Record PrometheusConfig : Type := mkPrometheusConfig {
  ScrapeConfigs : list ScrapeConfig
}.

(** The constants of lines 35-39. *)
Definition defaultJobName : string := "minio-job".
Definition legacyMetricsPath : string := "/minio/prometheus/metrics".
Definition defaultMetricsPath : string := "/minio/v2/metrics/cluster".

(** The composite literals that initialise the package variables
    [defaultConfig] (lines 120-132) and [legacyConfig] (lines 133-145):
    fields the literal leaves out hold the zero value of their type. *)
Definition defaultConfig_init : PrometheusConfig :=
  {| ScrapeConfigs :=
       [ {| JobName := defaultJobName;
            BearerToken := "";
            MetricsPath := defaultMetricsPath;
            Scheme := "";
            StaticConfigs := [ {| Targets := [ "" ] |} ] |} ] |}.

Definition legacyConfig_init : PrometheusConfig :=
  {| ScrapeConfigs :=
       [ {| JobName := defaultJobName;
            BearerToken := "";
            MetricsPath := legacyMetricsPath;
            Scheme := "";
            StaticConfigs := [ {| Targets := [ "" ] |} ] |} ] |}.

(** The [result] monad, for stdpp's [x ← m; k] notation. *)
#[export] Instance result_ret : MRet result := fun _ a => Ok a.
#[export] Instance result_bind : MBind result := fun _ _ f m =>
  match m with
  | Ok a => f a
  | Err e => Err e
  end.

(** [f] over a slice, stopping at the first error. *)
Fixpoint result_mapM {A B : Type} (f : A -> result B) (l : list A) : result (list B) :=
  match l with
  | [] => Ok []
  | x :: l' =>
      match f x with
      | Err e => Err e
      | Ok y =>
          match result_mapM f l' with
          | Err e => Err e
          | Ok ys => Ok (y :: ys)
          end
      end
  end.

(** ** JSON text *)

(** The JSON text of package [github.com/minio/colorjson], a copy of
    [encoding/json] kept outside this repository: values, the escaping of
    strings, the indented layout, and the values the types of this file
    marshal to.  A nil slice, which Go writes as [null], is not told
    apart from an empty one, written [[]]; no slice of the two package
    variables is nil. *)
Module JSON.

Inductive value : Type :=
| Str (s : string)
| Arr (l : list value)
| Obj (l : list (string * value)).

(** The hexadecimal digit of [n < 16]. *)
Definition hex (n : N) : string :=
  match n with
  | 0%N => "0" | 1%N => "1" | 2%N => "2" | 3%N => "3"
  | 4%N => "4" | 5%N => "5" | 6%N => "6" | 7%N => "7"
  | 8%N => "8" | 9%N => "9" | 10%N => "a" | 11%N => "b"
  | 12%N => "c" | 13%N => "d" | 14%N => "e" | _ => "f"
  end.

(** One byte inside a JSON string: the quote and the backslash take a
    backslash, line feed, carriage return and tab their letter, the other
    control bytes and the HTML bytes [<], [>], [&] the [\u00xx] form.
    Bytes from 0x80 up are copied (text in UTF-8). *)
Definition escape (c : ascii) : string :=
  let n := byte_of c in
  if (n =? 34)%N || (n =? 92)%N then BS ++ String c EmptyString
  else if (n =? 10)%N then BS ++ "n"
  else if (n =? 13)%N then BS ++ "r"
  else if (n =? 9)%N then BS ++ "t"
  else if (n <? 32)%N || (n =? 60)%N || (n =? 62)%N || (n =? 38)%N
       then BS ++ "u00" ++ hex (n / 16) ++ hex (n mod 16)
  else String c EmptyString.

Fixpoint escapes (s : string) : string :=
  match s with
  | EmptyString => EmptyString
  | String c s' => escape c ++ escapes s'
  end.

(** A string value: its bytes, escaped, between double quotes. *)
Definition quote (s : string) : string := DQ ++ escapes s ++ DQ.

Section Indent.

Variables prefix indent : string.

(** A line break followed by the prefix and [depth] indents. *)
Definition newline (depth : nat) : string := LF ++ prefix ++ Repeat indent depth.

(** Modelled from the spec: the layout of [json.MarshalIndent], which the
    spec gives as indented JSON text with one indent a level (for a
    single target: an opening bracket, a line break, one space, the
    quoted host, a line break and a closing bracket).  The text of a
    value met at nesting level [depth]: an element per line one level
    deeper, a key and its value separated by a colon and a space, and the
    empty array and object closed at once. *)
Fixpoint encode (depth : nat) (v : value) : string :=
  match v with
  | Str s => quote s
  | Arr [] => "[]"
  | Arr l =>
      "[" ++ newline (S depth)
          ++ Join (List.map (encode (S depth)) l) ("," ++ newline (S depth))
          ++ newline depth ++ "]"
  | Obj [] => "{}"
  | Obj l =>
      "{" ++ newline (S depth)
          ++ Join (List.map (fun kv => let '(k, x) := kv in
                                       quote k ++ ": " ++ encode (S depth) x) l)
                  ("," ++ newline (S depth))
          ++ newline depth ++ "}"
  end.

End Indent.

(** Modelled from the spec: [json.MarshalIndent(v, prefix, indent)].
    Strings, slices and structs of them always marshal: the error result
    of the Go function is never set by a value of this file. *)
Definition MarshalIndent (v : value) (prefix indent : string) : result string :=
  Ok (encode prefix indent 0 v).

(** The values the types of this file marshal to (tags of lines 88 and
    109-113). *)
Definition of_Targets (l : list string) : value := Arr (List.map Str l).

Definition of_StatConfig (t : StatConfig) : value :=
  Obj [ ("targets", of_Targets (Targets t)) ].

Definition of_ScrapeConfig (sc : ScrapeConfig) : value :=
  Obj [ ("jobName", Str (JobName sc));
        ("bearerToken", Str (BearerToken sc));
        ("metricsPath", Str (MetricsPath sc));
        ("scheme", Str (Scheme sc));
        ("staticConfigs", Arr (List.map of_StatConfig (StaticConfigs sc))) ].

End JSON.

(** ** YAML text *)

(** The YAML text of package [gopkg.in/yaml.v2], kept outside this
    repository.  The keys, the [omitempty] marks (a field holding the
    empty string or a slice of length 0 is left out) and the [flow] mark
    are the [yaml:] tags of lines 67, 88 and 109-113.  How a string is
    written as a scalar (as it is, between quotes, escaped, as a block,
    or refused with an error) is the library's choice and is the
    parameter [scalar]: it is given the column of the enclosing mapping,
    whether the string stands in a flow sequence, and the string.  The
    folding of a flow sequence longer than the line width is not
    modelled. *)
Module YAML.

Section Marshal.

Variable scalar : nat -> bool -> string -> result string.

(** [n] spaces. *)
Definition pad (n : nat) : string := Repeat " " n.

(** A [yaml:",flow"] sequence of strings. *)
Definition flow_seq (col : nat) (l : list string) : result string :=
  items ← result_mapM (scalar col true) l;
  Ok ("[" ++ Join items ", " ++ "]").

(** A [StatConfig], as a mapping whose key stands in column [col]; the
    text starts at the key. *)
Definition of_StatConfig (col : nat) (t : StatConfig) : result string :=
  s ← flow_seq col (Targets t);
  Ok ("targets: " ++ s ++ LF).

(** A block sequence whose dashes stand in column [col], from the texts
    of its entries. *)
Definition block_seq (col : nat) (items : list string) : string :=
  Join (List.map (fun s => pad col ++ "- " ++ s) items) "".

(** A field with [omitempty]: nothing when [empty], else [text]. *)
Definition omitempty (empty : bool) (text : result string) : result string :=
  if empty then Ok "" else text.

(** A [ScrapeConfig], as a mapping whose keys stand in column [col]; the
    text starts at the first key. *)
Definition of_ScrapeConfig (col : nat) (sc : ScrapeConfig) : result string :=
  job ← scalar col false (JobName sc);
  tok ← scalar col false (BearerToken sc);
  path ← omitempty (String.eqb (MetricsPath sc) "")
           (p ← scalar col false (MetricsPath sc);
            Ok (pad col ++ "metrics_path: " ++ p ++ LF));
  sch ← omitempty (String.eqb (Scheme sc) "")
          (s ← scalar col false (Scheme sc);
           Ok (pad col ++ "scheme: " ++ s ++ LF));
  static ← omitempty (Nat.eqb (length (StaticConfigs sc)) 0)
             (items ← result_mapM (of_StatConfig (col + 2)) (StaticConfigs sc);
              Ok (pad col ++ "static_configs:" ++ LF ++ block_seq col items));
  Ok ("job_name: " ++ job ++ LF
      ++ pad col ++ "bearer_token: " ++ tok ++ LF
      ++ path ++ sch ++ static).

(** Modelled from the spec: [yaml.Marshal(c)] for a [PrometheusConfig].
    Section 6 of the spec gives the text: a mapping with key
    [scrape_configs], a sequence of entries with keys [job_name],
    [bearer_token], [metrics_path], [scheme] and [static_configs], itself
    a sequence of entries with key [targets], a flow-style sequence of
    host names.  A sequence inside a mapping starts in the column of its
    key, and a document with nothing to write is the empty mapping. *)
Definition Marshal (c : PrometheusConfig) : result string :=
  if Nat.eqb (length (ScrapeConfigs c)) 0 then Ok ("{}" ++ LF)
  else
    items ← result_mapM (of_ScrapeConfig 2) (ScrapeConfigs c);
    Ok ("scrape_configs:" ++ LF ++ block_seq 0 items).

(** Modelled from the spec: [yaml.Marshal(t)] for a [StatConfig], the
    mapping with the one key [targets]. *)
Definition Marshal_StatConfig (t : StatConfig) : result string :=
  of_StatConfig 0 t.

End Marshal.

End YAML.

(** ** Colours of the console *)

(** Package [console] and the [color] package it builds on, kept outside
    this repository.  A colour is the pair of escape sequences written
    before and after a text; the console keeps one colour per tag in its
    theme. *)
Module console.

Record Color : Type := mkColor {
  format : string;
  unformat : string
}.

(** [color.New(attr)]: select the attribute, then reset. *)
Definition color_New (attr : string) : Color :=
  {| format := ESC ++ "[" ++ attr ++ "m"; unformat := ESC ++ "[0m" |}.

(** [color.FgGreen]. *)
Definition FgGreen : string := "32".

(** Modelled from the spec: [console.Colorize(tag, data)].  The spec has
    the structured text optionally colorized for terminal display: the
    text is wrapped in the colour of its tag when the output is a
    terminal and the theme knows the tag, and is left as it is
    otherwise. *)
Definition Colorize (isTerminal : bool) (Theme : gmap string Color)
    (tag data : string) : string :=
  if isTerminal then
    match Theme !! tag with
    | Some c => format c ++ data ++ unformat c
    | None => data
    end
  else data.

End console.

(** ** Time (package [time]) *)

Module time.

#[local] Open Scope Z_scope.

(** A [Duration] is a count of nanoseconds. *)
Definition Duration : Type := Z.

Definition Nanosecond : Duration := 1.
Definition Microsecond : Duration := 1000 * Nanosecond.
Definition Millisecond : Duration := 1000 * Microsecond.
Definition Second : Duration := 1000 * Millisecond.
Definition Minute : Duration := 60 * Second.
Definition Hour : Duration := 60 * Minute.

(** An instant, as the nanoseconds elapsed since the Unix epoch
    (negative before it).  Go keeps seconds and nanoseconds apart in
    64-bit fields; no reading of a clock comes near their bounds. *)
Definition Instant : Type := Z.

(** [t.Add(d)]. *)
Definition Add (t : Instant) (d : Duration) : Instant := t + d.

(** [t.Unix()]: the whole seconds since the epoch, rounded down. *)
Definition Unix (t : Instant) : Z := t / Second.

End time.

(** Line 117. *)
Definition defaultPrometheusJWTExpiry : time.Duration :=
  (100 * 365 * 24 * time.Hour)%Z.

(** ** Bearer tokens (package [jwt-go]) *)

Module jwtgo.

(** The HMAC signing methods of the package. *)
Inductive SigningMethod : Type :=
| SigningMethodHS256
| SigningMethodHS384
| SigningMethodHS512.

(** [jwtgo.StandardClaims]. *)
Record StandardClaims : Type := mkStandardClaims {
  Audience : string;
  ExpiresAt : Z;
  Id : string;
  IssuedAt : Z;
  Issuer : string;
  NotBefore : Z;
  Subject : string
}.

(** A token before it is signed. *)
Record Token : Type := mkToken {
  Method : SigningMethod;
  Claims : StandardClaims
}.

(** [jwtgo.NewWithClaims(method, claims)]. *)
Definition NewWithClaims (method : SigningMethod) (claims : StandardClaims) : Token :=
  {| Method := method; Claims := claims |}.

End jwtgo.

(** ** The collaborators of the handler *)

(** [net/url]: the two fields of a parsed URL the handler reads. *)
Module url.

Record URL : Type := mkURL {
  Scheme : string;
  Host : string
}.

End url.

(** [madmin]: the part of the server information the handler reads. *)
Module madmin.

Record ServerProperties : Type := mkServerProperties {
  Version : string
}.

Record InfoMessage : Type := mkInfoMessage {
  Servers : list ServerProperties
}.

End madmin.

(** The host configuration an alias stands for (the value behind the
    pointer [mustGetHostConfig] returns). *)
Record HostConfig : Type := mkHostConfig {
  URL : string;
  AccessKey : string;
  SecretKey : string
}.

(** What one run of the command is given from outside this file: the
    functions of package [cmd] defined in other files, the imported
    packages, the clock and the terminal.  Each field is the result the
    call of that name returns. *)
Record Collaborators : Type := mkCollaborators {
  (** package [cmd] *)
  cleanAlias : string -> string;
  isValidAlias : string -> bool;
  mustGetHostConfig : string -> option HostConfig;
  AdminClient : Type;
  newAdminClient : string -> result AdminClient;
  globalJSON : bool;
  UTCNow : time.Instant;
  (** [net/url] *)
  url_Parse : string -> result url.URL;
  (** [jwt-go]: [token.SignedString(key)] *)
  SignedString : jwtgo.Token -> list Byte.byte -> result string;
  (** [madmin]: [client.ServerInfo(ctx)] *)
  ServerInfo : AdminClient -> result madmin.InfoMessage;
  (** [yaml.v2]: how a string is written as a scalar *)
  yaml_scalar : nat -> bool -> string -> result string;
  (** [console]: the output is a terminal that takes colours *)
  isTerminal : bool
}.

(** ** The process *)

(** The state a run reads and writes: the two package variables of lines
    120 and 133, the theme of the console, and what was written so far
    (oldest first) to the standard output by [console.Println] and as
    diagnostics by the fatal helpers. *)
Record process : Type := mkProcess {
  legacyConfig : PrometheusConfig;
  defaultConfig : PrometheusConfig;
  Theme : gmap string console.Color;
  stdout : list string;
  stderr : list string
}.

(** How a call ends: it returns, the process exits with a status
    ([os.Exit]), or a run-time panic unwinds it. *)
Inductive outcome (A : Type) : Type :=
| Returned (a : A)
| Exited (status : Z)
| Panicked (msg : string).

Arguments Returned {A} a.
Arguments Exited {A} status.
Arguments Panicked {A} msg.

(** A computation of the process. *)
Definition M (A : Type) : Type := process -> outcome A * process.

#[export] Instance M_ret : MRet M := fun _ a p => (Returned a, p).
#[export] Instance M_bind : MBind M := fun _ _ f m p =>
  match m p with
  | (Returned a, p') => f a p'
  | (Exited s, p') => (Exited s, p')
  | (Panicked msg, p') => (Panicked msg, p')
  end.

(** [os.Exit(status)]. *)
Definition exit {A : Type} (status : Z) : M A := fun p => (Exited status, p).

(** A run-time panic. *)
Definition panic {A : Type} (msg : string) : M A := fun p => (Panicked msg, p).

(** The message of an index expression [s[0]] on an empty slice. *)
Definition index_out_of_range : string :=
  "runtime error: index out of range [0] with length 0".

(** [console.Println(s)]. *)
Definition Println (s : string) : M unit := fun p =>
  (Returned tt,
   {| legacyConfig := legacyConfig p; defaultConfig := defaultConfig p;
      Theme := Theme p; stdout := stdout p ++ [s]; stderr := stderr p |}).

(** A diagnostic, written apart from the standard output. *)
Definition diagnose (s : string) : M unit := fun p =>
  (Returned tt,
   {| legacyConfig := legacyConfig p; defaultConfig := defaultConfig p;
      Theme := Theme p; stdout := stdout p; stderr := stderr p ++ [s] |}).

(** [console.SetColor(tag, c)]. *)
Definition SetColor (tag : string) (c : console.Color) : M unit := fun p =>
  (Returned tt,
   {| legacyConfig := legacyConfig p; defaultConfig := defaultConfig p;
      Theme := <[tag := c]> (Theme p); stdout := stdout p; stderr := stderr p |}).

(** The theme, read. *)
Definition getTheme : M (gmap string console.Color) := fun p => (Returned (Theme p), p).

(** A [*probe.Error]: nil, or the error it wraps. *)
Definition probe_Error : Type := option error.

(** [probe.NewError(e)]: nil for a nil error. *)
Definition probe_NewError (e : option error) : probe_Error := e.

(** Modelled from the spec: [fatalIf] of package [cmd], defined in a file
    outside [src/].  It returns when the error is nil; otherwise, as the
    spec says of every fatal error, it terminates the process with a
    non-zero status and a human-readable diagnostic. *)
Definition fatalIf (err : probe_Error) (msg : string) : M unit :=
  match err with
  | None => mret tt
  | Some e => diagnose (msg ++ " " ++ e) ;; exit 1
  end.

(** Modelled from the spec: [errInvalidAlias] of package [cmd], the
    error of an invalid alias; it is never nil (the spec has an invalid
    alias fatal). *)
Definition errInvalidAlias (alias : string) : probe_Error :=
  Some ("Alias `" ++ alias ++ "` is not valid.").

(** Modelled from the spec: [errInvalidAliasedURL] of package [cmd], the
    error of an unknown alias; it is never nil (the spec has an unknown
    alias fatal). *)
Definition errInvalidAliasedURL (alias : string) : probe_Error :=
  Some ("Use `mc alias set mycloud ...` to add an alias for `" ++ alias ++ "`.").

(** A [(value, error)] pair as Go holds it after the call: the zero value
    beside an error. *)
Definition go_pair {A : Type} (zero : A) (r : result A) : A * option error :=
  match r with
  | Ok a => (a, None)
  | Err e => (zero, Some e)
  end.

(** ** The renderers (lines 70-105) *)

(** The interface [message] of package [cmd]: what [printMsg] takes. *)
Class message (A : Type) : Type := mkMessage {
  message_String : A -> M string;
  message_JSON : A -> M string
}.

(** Lines 80-84, [PrometheusConfig.JSON]: the first scrape configuration
    is indexed and marshalled with an empty prefix and a one-space
    indent; a marshalling error is fatal. *)
Definition PrometheusConfig_JSON (c : PrometheusConfig) : M string :=
  match ScrapeConfigs c !! 0%nat with
  | None => panic index_out_of_range
  | Some sc =>
      let '(jsonMessageBytes, e) :=
        go_pair "" (JSON.MarshalIndent (JSON.of_ScrapeConfig sc) "" " ") in
      fatalIf (probe_NewError e) "Unable to marshal into JSON." ;;
      mret jsonMessageBytes
  end.

(** Lines 101-105, [StatConfig.JSON]: the target list is marshalled. *)
Definition StatConfig_JSON (t : StatConfig) : M string :=
  let '(jsonMessageBytes, e) :=
    go_pair "" (JSON.MarshalIndent (JSON.of_Targets (Targets t)) "" " ") in
  fatalIf (probe_NewError e) "Unable to marshal into JSON." ;;
  mret jsonMessageBytes.

Section Handler.

Context (E : Collaborators).

(** [console.Colorize(tag, data)] in this process. *)
Definition Colorize (tag data : string) : M string :=
  theme ← getTheme;
  mret (console.Colorize (isTerminal E) theme tag data).

(** Lines 71-77, [PrometheusConfig.String]: the whole document is
    marshalled to YAML; an error becomes the returned text. *)
Definition PrometheusConfig_String (c : PrometheusConfig) : M string :=
  match YAML.Marshal (yaml_scalar E) c with
  | Err err => mret ("error creating config string: " ++ err)
  | Ok b => Colorize "yaml" b
  end.

(** Lines 92-98, [StatConfig.String]. *)
Definition StatConfig_String (t : StatConfig) : M string :=
  match YAML.Marshal_StatConfig (yaml_scalar E) t with
  | Err err => mret ("error creating config string: " ++ err)
  | Ok b => Colorize "yaml" b
  end.

#[export] Instance PrometheusConfig_message : message PrometheusConfig :=
  {| message_String := PrometheusConfig_String; message_JSON := PrometheusConfig_JSON |}.

#[export] Instance StatConfig_message : message StatConfig :=
  {| message_String := StatConfig_String; message_JSON := StatConfig_JSON |}.

(** Modelled from the spec: [printMsg] of package [cmd], defined in a
    file outside [src/].  The spec has the rendered document written to
    the standard output in the format the caller's output mode selects:
    JSON text when [globalJSON] is set, structured text otherwise. *)
Definition printMsg {A : Type} `{message A} (msg : A) : M unit :=
  msgStr ← (if globalJSON E then message_JSON msg else message_String msg);
  Println msgStr.

(** ** The package variables, written in place *)

(** Which of the two package variables. *)
Inductive template : Type :=
| Legacy
| Current.

(** The value of the variable now. *)
Definition config (w : template) (p : process) : PrometheusConfig :=
  match w with
  | Legacy => legacyConfig p
  | Current => defaultConfig p
  end.

(** The variable, overwritten. *)
Definition store (w : template) (c : PrometheusConfig) (p : process) : process :=
  match w with
  | Legacy =>
      {| legacyConfig := c; defaultConfig := defaultConfig p;
         Theme := Theme p; stdout := stdout p; stderr := stderr p |}
  | Current =>
      {| legacyConfig := legacyConfig p; defaultConfig := c;
         Theme := Theme p; stdout := stdout p; stderr := stderr p |}
  end.

(** [c.ScrapeConfigs[0].BearerToken = token]; [None] when the index is
    out of range. *)
Definition set_BearerToken (token : string) (c : PrometheusConfig) : option PrometheusConfig :=
  sc ← ScrapeConfigs c !! 0%nat;
  Some {| ScrapeConfigs :=
            <[0%nat := {| JobName := JobName sc; BearerToken := token;
                          MetricsPath := MetricsPath sc; Scheme := Scheme sc;
                          StaticConfigs := StaticConfigs sc |}]> (ScrapeConfigs c) |}.

(** [c.ScrapeConfigs[0].Scheme = scheme]. *)
Definition set_Scheme (scheme : string) (c : PrometheusConfig) : option PrometheusConfig :=
  sc ← ScrapeConfigs c !! 0%nat;
  Some {| ScrapeConfigs :=
            <[0%nat := {| JobName := JobName sc; BearerToken := BearerToken sc;
                          MetricsPath := MetricsPath sc; Scheme := scheme;
                          StaticConfigs := StaticConfigs sc |}]> (ScrapeConfigs c) |}.

(** [c.ScrapeConfigs[0].StaticConfigs[0].Targets[0] = host]. *)
Definition set_Target (host : string) (c : PrometheusConfig) : option PrometheusConfig :=
  sc ← ScrapeConfigs c !! 0%nat;
  st ← StaticConfigs sc !! 0%nat;
  _ ← Targets st !! 0%nat;
  Some {| ScrapeConfigs :=
            <[0%nat := {| JobName := JobName sc; BearerToken := BearerToken sc;
                          MetricsPath := MetricsPath sc; Scheme := Scheme sc;
                          StaticConfigs :=
                            <[0%nat := {| Targets := <[0%nat := host]> (Targets st) |}]>
                              (StaticConfigs sc) |}]> (ScrapeConfigs c) |}.

(** One assignment statement on a package variable: the variable is
    written in place, or the indexing panics and leaves it as it was. *)
Definition assign (w : template) (f : PrometheusConfig -> option PrometheusConfig) : M unit :=
  fun p =>
    match f (config w p) with
    | Some c => (Returned tt, store w c p)
    | None => (Panicked index_out_of_range, p)
    end.

(** The variable, read (the argument of [printMsg] is a copy of it). *)
Definition load (w : template) : M PrometheusConfig :=
  fun p => (Returned (config w p), p).

(** ** The handler (lines 147-221) *)

(** The literal line 191 compares the reported version with. *)
Definition cutover : string := "2021-01-30T00-20-58Z".

(** The test of line 191: which variable is filled and printed. *)
Definition selectTemplate (version : string) : template :=
  if less version cutover then Legacy else Current.

(** Lines 192-194 and 200-202: the three assignments, and the value the
    variable holds after them. *)
Definition assemble (w : template) (token scheme host : string) : M PrometheusConfig :=
  assign w (set_BearerToken token) ;;
  assign w (set_Scheme scheme) ;;
  assign w (set_Target host) ;;
  load w.

(** The claims of lines 174-178, for an account, the reading of the
    clock and a validity; the fields the literal leaves out are zero. *)
Definition claims (accessKey : string) (now : time.Instant) (validity : time.Duration)
    : jwtgo.StandardClaims :=
  {| jwtgo.Audience := "";
     jwtgo.ExpiresAt := time.Unix (time.Add now validity);
     jwtgo.Id := "";
     jwtgo.IssuedAt := 0;
     jwtgo.Issuer := "prometheus";
     jwtgo.NotBefore := 0;
     jwtgo.Subject := accessKey |}.

(** Lines 174-180: the token of the claims, signed with the bytes of the
    secret key. *)
Definition mint (accessKey secretKey : string) (now : time.Instant)
    (validity : time.Duration) : result string :=
  SignedString E
    (jwtgo.NewWithClaims jwtgo.SigningMethodHS512 (claims accessKey now validity))
    (list_byte_of_string secretKey).

(** [ctx.Args().Get(0)]: the first argument, or the empty string. *)
Definition Args_Get0 (args : list string) : string :=
  match args !! 0%nat with
  | Some a => a
  | None => ""
  end.

(** Lines 148-152.  [cli.ShowCommandHelpAndExit] writes the help of the
    command and exits with the status it is given. *)
Definition checkAdminPrometheusSyntax (args : list string) : M unit :=
  if negb (Nat.eqb (length args) 1) then
    diagnose "USAGE: mc admin prometheus generate TARGET" ;; exit 1
  else mret tt.

(** Lines 154-207.  The returned value is the Go [error]: [None] is nil. *)
Definition generatePrometheusConfig (args : list string) : M (option error) :=
  let alias := cleanAlias E (Args_Get0 args) in
  (if negb (isValidAlias E alias)
   then fatalIf (errInvalidAlias alias) "Invalid alias."
   else mret tt) ;;
  match mustGetHostConfig E alias with
  | None =>
      fatalIf (errInvalidAliasedURL alias) ("No such alias `" ++ alias ++ "` found.") ;;
      mret None
  | Some hostConfig =>
      match url_Parse E (URL hostConfig) with
      | Err err => mret (Some err)
      | Ok u =>
          match mint (AccessKey hostConfig) (SecretKey hostConfig) (UTCNow E)
                  defaultPrometheusJWTExpiry with
          | Err err => mret (Some err)
          | Ok token =>
              match newAdminClient E alias with
              | Err cerr =>
                  fatalIf (Some cerr) "Unable to initialize admin connection." ;;
                  panic "runtime error: invalid memory address or nil pointer dereference"
              | Ok client =>
                  fatalIf None "Unable to initialize admin connection." ;;
                  let '(info, e) := go_pair (madmin.mkInfoMessage []) (ServerInfo E client) in
                  (match e with
                   | Some _ => fatalIf (probe_NewError e) "Failed to get server info."
                   | None => mret tt
                   end) ;;
                  match madmin.Servers info !! 0%nat with
                  | None => panic index_out_of_range
                  | Some server =>
                      doc ← assemble (selectTemplate (madmin.Version server)) token
                              (url.Scheme u) (url.Host u);
                      printMsg doc ;;
                      mret None
                  end
              end
          end
      end
  end.

(** Lines 210-221.  Whatever [generatePrometheusConfig] returns, the
    handler returns nil. *)
Definition mainAdminPrometheusGenerate (args : list string) : M (option error) :=
  SetColor "yaml" (console.color_New console.FgGreen) ;;
  checkAdminPrometheusSyntax args ;;
  err ← generatePrometheusConfig args;
  match err with
  | Some _ => mret None
  | None => mret None
  end.

End Handler.

(** Modelled from the spec: the exit status of a run of the handler, set
    by the command-line framework and the Go run time, outside [src/].
    The spec has normal completion after the document is printed and a
    non-zero status for a fatal error: the status is the one given to
    [os.Exit], 2 for a panic, 0 when the handler returns nil and 1 when
    it returns an error. *)
Definition exitStatus (o : outcome (option error)) : Z :=
  match o with
  | Returned None => 0
  | Returned (Some _) => 1
  | Exited status => status
  | Panicked _ => 2
  end.

(** ** Runs of the process *)

(** The metrics path each package variable is initialised with. *)
Definition path_of (w : template) : string :=
  match w with
  | Legacy => legacyMetricsPath
  | Current => defaultMetricsPath
  end.

(** The initial value of each package variable. *)
Definition config_init (w : template) : PrometheusConfig :=
  match w with
  | Legacy => legacyConfig_init
  | Current => defaultConfig_init
  end.

(** A document of one scrape configuration with one static
    configuration of one target. *)
Definition one_target (job token path scheme host : string) : PrometheusConfig :=
  {| ScrapeConfigs :=
       [ {| JobName := job;
            BearerToken := token;
            MetricsPath := path;
            Scheme := scheme;
            StaticConfigs := [ {| Targets := [ host ] |} ] |} ] |}.

(** Such a document for job [minio-job]. *)
Definition document (path token scheme host : string) : PrometheusConfig :=
  one_target defaultJobName token path scheme host.

(** The other package variable. *)
Definition other (w : template) : template :=
  match w with
  | Legacy => Current
  | Current => Legacy
  end.

(** The states of a process: it starts with the two package variables
    initialised (and any theme and earlier output), and goes on by
    running the handler, [generatePrometheusConfig] or the assignments
    of [assemble], with any collaborators and arguments, however the
    run ends. *)
Inductive reachable : process -> Prop :=
| reachable_start (theme : gmap string console.Color) (out err : list string) :
    reachable {| legacyConfig := legacyConfig_init;
                 defaultConfig := defaultConfig_init;
                 Theme := theme; stdout := out; stderr := err |}
| reachable_main (E : Collaborators) (args : list string) (p p' : process)
    (o : outcome (option error)) :
    reachable p -> mainAdminPrometheusGenerate E args p = (o, p') -> reachable p'
| reachable_generate (E : Collaborators) (args : list string) (p p' : process)
    (o : outcome (option error)) :
    reachable p -> generatePrometheusConfig E args p = (o, p') -> reachable p'
| reachable_assemble (w : template) (token scheme host : string) (p p' : process)
    (o : outcome PrometheusConfig) :
    reachable p -> assemble w token scheme host p = (o, p') -> reachable p'.

(** The process once the handler has set the colour of tag [yaml]
    (line 212). *)
Definition themed (p : process) : process :=
  {| legacyConfig := legacyConfig p; defaultConfig := defaultConfig p;
     Theme := <["yaml" := console.color_New console.FgGreen]> (Theme p);
     stdout := stdout p; stderr := stderr p |}.

(** The process after a run of the handler that set the colour of tag
    [yaml], wrote [out] to the standard output and [diag] as
    diagnostics, and stored the document of [fill], if any, in its
    variable. *)
Definition after (fill : option (template * PrometheusConfig)) (out diag : list string)
    (p : process) : process :=
  let q := match fill with
           | Some (w, doc) => store w doc p
           | None => p
           end in
  {| legacyConfig := legacyConfig q; defaultConfig := defaultConfig q;
     Theme := <["yaml" := console.color_New console.FgGreen]> (Theme p);
     stdout := stdout p ++ out; stderr := stderr p ++ diag |}.

(** The end of a run on a fatal error: a diagnostic, status 1, nothing
    on the standard output, the package variables as they were. *)
Definition fatal (msg : string) (p : process) : outcome (option error) * process :=
  (Exited 1,
   {| legacyConfig := legacyConfig p; defaultConfig := defaultConfig p;
      Theme := Theme p; stdout := stdout p; stderr := stderr p ++ [msg] |}).

(** The text [printMsg] writes for a document with a first scrape
    configuration, under a theme. *)
Definition rendering (E : Collaborators) (theme : gmap string console.Color)
    (doc : PrometheusConfig) : string :=
  if globalJSON E then
    match ScrapeConfigs doc !! 0%nat with
    | Some sc => JSON.encode "" " " 0 (JSON.of_ScrapeConfig sc)
    | None => ""
    end
  else
    match YAML.Marshal (yaml_scalar E) doc with
    | Err err => "error creating config string: " ++ err
    | Ok b => console.Colorize (isTerminal E) theme "yaml" b
    end.

(** The failures the handler meets with [fatalIf], for a run on [alias]:
    the alias is invalid or unknown, or, once the URL is parsed and the
    token signed, the admin client cannot be made or the server
    information cannot be fetched. *)
Inductive fatal_failure (E : Collaborators) (alias : string) : Prop :=
| alias_invalid :
    isValidAlias E alias = false -> fatal_failure E alias
| alias_unknown :
    mustGetHostConfig E alias = None -> fatal_failure E alias
| client_failed (hostConfig : HostConfig) (u : url.URL) (token : string) (cerr : error) :
    mustGetHostConfig E alias = Some hostConfig ->
    url_Parse E (URL hostConfig) = Ok u ->
    mint E (AccessKey hostConfig) (SecretKey hostConfig) (UTCNow E)
      defaultPrometheusJWTExpiry = Ok token ->
    newAdminClient E alias = Err cerr ->
    fatal_failure E alias
| info_failed (hostConfig : HostConfig) (u : url.URL) (token : string)
    (client : AdminClient E) (e : error) :
    mustGetHostConfig E alias = Some hostConfig ->
    url_Parse E (URL hostConfig) = Ok u ->
    mint E (AccessKey hostConfig) (SecretKey hostConfig) (UTCNow E)
      defaultPrometheusJWTExpiry = Ok token ->
    newAdminClient E alias = Ok client ->
    ServerInfo E client = Err e ->
    fatal_failure E alias.

(** The failures [generatePrometheusConfig] returns as an error: the URL
    of the alias does not parse, or the token cannot be signed. *)
Inductive returned_failure (E : Collaborators) (alias : string) : Prop :=
| url_failed (hostConfig : HostConfig) (err : error) :
    isValidAlias E alias = true ->
    mustGetHostConfig E alias = Some hostConfig ->
    url_Parse E (URL hostConfig) = Err err ->
    returned_failure E alias
| signing_failed (hostConfig : HostConfig) (u : url.URL) (err : error) :
    isValidAlias E alias = true ->
    mustGetHostConfig E alias = Some hostConfig ->
    url_Parse E (URL hostConfig) = Ok u ->
    mint E (AccessKey hostConfig) (SecretKey hostConfig) (UTCNow E)
      defaultPrometheusJWTExpiry = Err err ->
    returned_failure E alias.



(** A value is shown in a YAML text: it was left out as empty, or the
    scalar the library writes for it, in the given column and context, is
    in the text. *)
Definition shown (scalar : nat -> bool -> string -> result string)
    (col : nat) (flow : bool) (s v : string) : Prop :=
  v = "" \/ exists r, scalar col flow v = Ok r /\ Contains s r.

(** The YAML library writes the string [v] without escaping it: whatever
    the column and the context, the scalar it writes has [v] in it. *)
Definition written_verbatim (E : Collaborators) (v : string) : Prop :=
  forall (col : nat) (flow : bool) (r : string),
    yaml_scalar E col flow v = Ok r -> Contains r v.

(** A process at its start, with nothing written yet. *)
Definition start : process :=
  {| legacyConfig := legacyConfig_init; defaultConfig := defaultConfig_init;
     Theme := ∅; stdout := []; stderr := [] |}.

(** What the state of the two package variables always is (shown below):
    each holds a one-target document with its own metrics path. *)
Definition filled (w : template) (c : PrometheusConfig) : Prop :=
  exists token scheme host : string, c = document (path_of w) token scheme host.

Definition consistent (p : process) : Prop :=
  filled Legacy (legacyConfig p) /\ filled Current (defaultConfig p).

(** A computation keeps the two package variables consistent. *)
Definition keeps {A : Type} (m : M A) : Prop :=
  forall (p p' : process) (o : outcome A),
    consistent p -> m p = (o, p') -> consistent p'.

(** A computation leaves the two package variables alone. *)
Definition untouched {A : Type} (m : M A) : Prop :=
  forall (p p' : process) (o : outcome A),
    m p = (o, p') ->
    legacyConfig p' = legacyConfig p /\ defaultConfig p' = defaultConfig p.

(** ** Sample collaborators *)

(** Collaborators to run the handler on: the alias [play] of the help
    text, a clock, a table for the URL parser, a server reporting one
    version, a scalar writer for plain text and a small signing method
    with its decoder.  They stand for no particular library; they are
    what the statements below are evaluated on. *)
Module Sample.

(** The bits of a positive number, lowest first. *)
Fixpoint bits (n : positive) : string :=
  match n with
  | xH => ""
  | xO q => "0" ++ bits q
  | xI q => "1" ++ bits q
  end.

(** A number: its sign, its bits and a closing dot. *)
Definition number (z : Z) : string :=
  match z with
  | Z0 => "z."
  | Zpos n => "p" ++ bits n ++ "."
  | Zneg n => "n" ++ bits n ++ "."
  end.

(** The bits read back, up to the closing dot, and the text after it. *)
Fixpoint read_bits (s : string) : option (positive * string) :=
  match s with
  | String c r =>
      if Ascii.eqb c "." then Some (xH, r)
      else if Ascii.eqb c "0" then '(q, rest) ← read_bits r; Some (xO q, rest)
      else if Ascii.eqb c "1" then '(q, rest) ← read_bits r; Some (xI q, rest)
      else None
  | EmptyString => None
  end.

Definition read_number (s : string) : option (Z * string) :=
  match s with
  | String c r =>
      if Ascii.eqb c "z" then
        match r with
        | String d rest => if Ascii.eqb d "." then Some (0%Z, rest) else None
        | EmptyString => None
        end
      else if Ascii.eqb c "p" then '(q, rest) ← read_bits r; Some (Zpos q, rest)
      else if Ascii.eqb c "n" then '(q, rest) ← read_bits r; Some (Zneg q, rest)
      else None
  | EmptyString => None
  end.

(** [s] without its prefix [pre], when it has it. *)
Fixpoint strip (pre s : string) {struct pre} : option string :=
  match pre, s with
  | EmptyString, _ => Some s
  | String x pre', String y s' => if Ascii.eqb x y then strip pre' s' else None
  | String _ _, EmptyString => None
  end.

(** The tag a key leaves on a token: one letter per byte of the key. *)
Definition tag (key : list Byte.byte) : string := Repeat "k" (length key) ++ ".".

(** The token of the claims the handler makes: issuer [prometheus], a
    subject and an expiry, nothing else set. *)
Definition prometheusToken (exp : Z) (sub : string) : jwtgo.Token :=
  jwtgo.NewWithClaims jwtgo.SigningMethodHS512
    {| jwtgo.Audience := ""; jwtgo.ExpiresAt := exp; jwtgo.Id := "";
       jwtgo.IssuedAt := 0; jwtgo.Issuer := "prometheus"; jwtgo.NotBefore := 0;
       jwtgo.Subject := sub |}.

#[export] Instance SigningMethod_eq_dec : EqDecision jwtgo.SigningMethod.
Proof. solve_decision. Defined.

#[export] Instance StandardClaims_eq_dec : EqDecision jwtgo.StandardClaims.
Proof. solve_decision. Defined.

#[export] Instance Token_eq_dec : EqDecision jwtgo.Token.
Proof. solve_decision. Defined.

(** Signing: the tag of the key, the expiry and the subject.  Every key
    signs, the empty one too, as with an HMAC; tokens of other claims
    are not supported. *)
Definition sign (t : jwtgo.Token) (key : list Byte.byte) : result string :=
  let c := jwtgo.Claims t in
  if decide (t = prometheusToken (jwtgo.ExpiresAt c) (jwtgo.Subject c))
  then Ok (tag key ++ number (jwtgo.ExpiresAt c) ++ jwtgo.Subject c)
  else Err "unsupported claims".

(** Decoding under a key: the tag must be the key's. *)
Definition parse (s : string) (key : list Byte.byte) : result jwtgo.Token :=
  match strip (tag key) s with
  | None => Err "signature is invalid"
  | Some payload =>
      match read_number payload with
      | None => Err "token is malformed"
      | Some (exp, sub) => Ok (prometheusToken exp sub)
      end
  end.

(** A signing method that fails, as the type of [SignedString] allows.
    The HMAC method of line 174 does not, with a key of bytes: this one
    stands for a method whose hash function is not linked in. *)
Definition sign_unavailable (t : jwtgo.Token) (key : list Byte.byte) : result string :=
  Err "the requested hash function is unavailable".

(** A scalar writer: the empty string between double quotes, a string
    with a colon inside a flow sequence between single quotes, any other
    string as it is. *)
Definition scalar (col : nat) (flow : bool) (s : string) : result string :=
  if String.eqb s "" then Ok (DQ ++ DQ)
  else if flow && containsb s ":" then Ok ("'" ++ s ++ "'")
  else Ok s.

(** A string between single quotes, as YAML writes it: each single quote
    inside is doubled. *)
Fixpoint doubled (s : string) : string :=
  match s with
  | EmptyString => EmptyString
  | String c s' =>
      if Ascii.eqb c "'" then String c (String c (doubled s'))
      else String c (doubled s')
  end.

(** The scalar writer above, with the single quotes inside a
    single-quoted string doubled. *)
Definition scalar_quoting (col : nat) (flow : bool) (s : string) : result string :=
  if String.eqb s "" then Ok (DQ ++ DQ)
  else if flow && containsb s ":" then Ok ("'" ++ doubled s ++ "'")
  else Ok s.

(** A scalar writer that refuses every string. *)
Definition scalar_refused (col : nat) (flow : bool) (s : string) : result string :=
  Err "cannot marshal".

(** The URLs the parser knows. *)
Definition parse_url (s : string) : result url.URL :=
  if String.eqb s "https://play.min.io:9000"
  then Ok {| url.Scheme := "https"; url.Host := "play.min.io:9000" |}
  else if String.eqb s "https://minio.example.com:443"
  then Ok {| url.Scheme := "https"; url.Host := "minio.example.com:443" |}
  else Err "parse error".

(** The collaborators of a run on alias [play], with the output mode, the
    URL and the secret key of the alias, the version the server reports,
    the signing method and the scalar writer left open. *)
Definition collaborators (json : bool) (endpoint secret version : string)
    (signer : jwtgo.Token -> list Byte.byte -> result string)
    (writer : nat -> bool -> string -> result string) : Collaborators :=
  {| cleanAlias := fun a => a;
     isValidAlias := fun a => negb (String.eqb a "");
     mustGetHostConfig := fun a =>
       if String.eqb a "play"
       then Some {| URL := endpoint;
                    AccessKey := "Q3AM3UQ867SPQQA43P2F";
                    SecretKey := secret |}
       else None;
     AdminClient := string;
     newAdminClient := fun a => Ok a;
     globalJSON := json;
     UTCNow := (1612000000 * time.Second)%Z;
     url_Parse := parse_url;
     SignedString := signer;
     ServerInfo := fun _ => Ok {| madmin.Servers := [ {| madmin.Version := version |} ] |};
     yaml_scalar := writer;
     isTerminal := false |}.

(** A run whose signing method is not available. *)
Definition unsigned : Collaborators :=
  collaborators false "https://play.min.io:9000"
    "zuf+tfteSlswRu7BJ86wekitnifILbZam1KYY3TG" "2022-01-01T00-00-00Z"
    sign_unavailable scalar.

(** A run on an alias whose URL does not parse. *)
Definition unparsed : Collaborators :=
  collaborators false "https://[::1"
    "zuf+tfteSlswRu7BJ86wekitnifILbZam1KYY3TG" "2022-01-01T00-00-00Z"
    sign scalar.

(** A run on an alias whose secret key is empty. *)
Definition keyless : Collaborators :=
  collaborators false "https://play.min.io:9000" "" "2022-01-01T00-00-00Z"
    sign scalar.

(** A run whose YAML library refuses every string. *)
Definition refused : Collaborators :=
  collaborators false "https://play.min.io:9000" "s3cret" "2022-01-01T00-00-00Z"
    sign scalar_refused.

(** A run whose YAML library doubles the single quotes of what it puts
    between single quotes. *)
Definition quoting : Collaborators :=
  collaborators false "https://play.min.io:9000" "s3cret" "2022-01-01T00-00-00Z"
    sign scalar_quoting.

(** The runs of the spec's examples: host [minio.example.com:443] over
    [https], and a server that reports the given version. *)
Definition reporting (version : string) : Collaborators :=
  collaborators false "https://minio.example.com:443" "s3cret" version sign scalar.

(** The usual run: structured output, a secret, a server past the
    cutover. *)
Definition usual : Collaborators :=
  collaborators false "https://play.min.io:9000"
    "zuf+tfteSlswRu7BJ86wekitnifILbZam1KYY3TG" "2022-01-01T00-00-00Z" sign scalar.

(** The usual run against a cluster whose servers, in the order of the
    reply, are the given ones. *)
Definition serving (servers : list madmin.ServerProperties) : Collaborators :=
  {| cleanAlias := cleanAlias usual;
     isValidAlias := isValidAlias usual;
     mustGetHostConfig := mustGetHostConfig usual;
     AdminClient := string;
     newAdminClient := fun a => Ok a;
     globalJSON := globalJSON usual;
     UTCNow := UTCNow usual;
     url_Parse := url_Parse usual;
     SignedString := SignedString usual;
     ServerInfo := fun _ => Ok {| madmin.Servers := servers |};
     yaml_scalar := yaml_scalar usual;
     isTerminal := isTerminal usual |}.

(** A process whose current variable was left with a scrape configuration
    that has no static configuration. *)
Definition bare : process :=
  {| legacyConfig := legacyConfig_init;
     defaultConfig :=
       {| ScrapeConfigs :=
            [ {| JobName := defaultJobName; BearerToken := "";
                 MetricsPath := defaultMetricsPath; Scheme := "";
                 StaticConfigs := [] |} ] |};
     Theme := ∅; stdout := []; stderr := [] |}.

End Sample.

(** How a run of the handler ends, with what it stores, prints and
    diagnoses: a fatal error with its diagnostic, a returned error that
    the handler drops, the panic of line 191 on a reply without servers,
    or one printed document, stored in its variable. *)
Inductive verdict :
  outcome (option error) -> option (template * PrometheusConfig) ->
  list string -> list string -> Prop :=
| verdict_fatal (msg : string) :
    verdict (Exited 1) None [] [msg]
| verdict_dropped :
    verdict (Returned None) None [] []
| verdict_panic :
    verdict (Panicked index_out_of_range) None [] []
| verdict_printed (w : template) (token scheme host text : string) :
    verdict (Returned None) (Some (w, document (path_of w) token scheme host)) [text] [].

(** * Properties *)

(** ** Strings *)

Lemma byte_of_inj (x y : ascii) : byte_of x = byte_of y -> x = y.
Proof.
  unfold byte_of. intros H.
  rewrite <- (ascii_N_embedding x), <- (ascii_N_embedding y). now rewrite H.
Qed.

Lemma lex_lt_irrefl (a : string) : ~ lex_lt a a.
Proof.
  induction a as [|x a IH]; intros H; inversion H; subst.
  - lia.
  - now apply IH.
Qed.

(** The comparison of the run time decides the lexical order. *)
Lemma cmpstring_Lt (a b : string) : cmpstring a b = Lt <-> lex_lt a b.
Proof.
  revert b. induction a as [|x a IH]; intros [|y b]; simpl.
  - split; [discriminate | intros H; inversion H].
  - split; [intros _; constructor | reflexivity].
  - split; [discriminate | intros H; inversion H].
  - destruct (N.compare_spec (byte_of x) (byte_of y)) as [Heq | Hlt | Hgt].
    + apply byte_of_inj in Heq. subst y. rewrite IH. split.
      * now constructor.
      * intros H. inversion H; subst; [lia | assumption].
    + split; [intros _; now constructor | reflexivity].
    + split; [discriminate |].
      intros H. inversion H; subst; lia.
Qed.

Lemma less_lex_lt (a b : string) : less a b = true <-> lex_lt a b.
Proof.
  unfold less. rewrite <- cmpstring_Lt.
  destruct (cmpstring a b); split; congruence.
Qed.

Lemma less_irrefl (a : string) : less a a = false.
Proof.
  destruct (less a a) eqn:H; [|reflexivity].
  apply less_lex_lt in H. now apply lex_lt_irrefl in H.
Qed.

Lemma append_nil_l (a : string) : "" ++ a = a.
Proof. reflexivity. Qed.

Lemma append_cons (x : ascii) (a b : string) : String x a ++ b = String x (a ++ b).
Proof. reflexivity. Qed.

Lemma append_assoc (a b c : string) : (a ++ b) ++ c = a ++ (b ++ c).
Proof.
  induction a as [|x a IH]; [reflexivity|].
  now rewrite !append_cons, IH.
Qed.

Lemma append_nil_r (a : string) : a ++ "" = a.
Proof.
  induction a as [|x a IH]; [reflexivity|].
  now rewrite append_cons, IH.
Qed.

Lemma Contains_refl (s : string) : Contains s s.
Proof. exists "", "". now rewrite append_nil_r, append_nil_l. Qed.

Lemma Contains_trans (s t v : string) : Contains s t -> Contains t v -> Contains s v.
Proof.
  intros (a & b & ->) (c & d & ->). exists (a ++ c), (d ++ b).
  now rewrite !append_assoc.
Qed.

Lemma Contains_app_l (s t v : string) : Contains s v -> Contains (s ++ t) v.
Proof.
  intros (a & b & ->). exists a, (b ++ t). now rewrite !append_assoc.
Qed.

Lemma Contains_app_r (s t v : string) : Contains t v -> Contains (s ++ t) v.
Proof.
  intros (a & b & ->). exists (s ++ a), b. now rewrite !append_assoc.
Qed.

Lemma Contains_empty (s : string) : Contains s "".
Proof. exists "", s. reflexivity. Qed.

Lemma HasPrefix_app (s p : string) : HasPrefix s p = true <-> exists t, s = p ++ t.
Proof.
  revert s. induction p as [|y p IH]; intros s; simpl.
  - split; [intros _; now exists s | reflexivity].
  - destruct s as [|x s].
    + split; [discriminate | intros [t H]; discriminate].
    + destruct (Ascii.eqb_spec x y) as [-> | Hne].
      * rewrite IH. split; intros [t H]; exists t.
        -- rewrite append_cons. congruence.
        -- rewrite append_cons in H. congruence.
      * split; [discriminate | intros [t H]].
        rewrite append_cons in H. congruence.
Qed.

(** The computed test decides the occurrence. *)
Lemma containsb_Contains (s v : string) : containsb s v = true <-> Contains s v.
Proof.
  induction s as [|x s IH]; simpl.
  - rewrite orb_false_r, HasPrefix_app. split.
    + intros [t H]. exists "", t. exact H.
    + intros ([|c a] & b & H); [now exists b | discriminate].
  - rewrite orb_true_iff, IH, HasPrefix_app. split.
    + intros [[t H] | (a & b & H)].
      * exists "", t. exact H.
      * exists (String x a), b. rewrite append_cons. now rewrite H.
    + intros ([|c a] & b & H).
      * left. now exists b.
      * right. rewrite append_cons in H. exists a, b. congruence.
Qed.

(** ** The version test *)

(** C1.  For every reported version, the test of line 191 picks the
    legacy variable exactly when the version is lexically below the
    literal 2021-01-30T00-20-58Z, and the current one otherwise; at the
    literal itself it picks the current one. *)
Theorem selectTemplate_cutover (v : string) :
  (selectTemplate v = Legacy <-> lex_lt v "2021-01-30T00-20-58Z") /\
  (selectTemplate v = Current <-> ~ lex_lt v "2021-01-30T00-20-58Z") /\
  selectTemplate "2021-01-30T00-20-58Z" = Current.
Proof.
  unfold selectTemplate. fold cutover. rewrite <- less_lex_lt.
  split; [|split].
  - destruct (less v cutover); split; congruence.
  - destruct (less v cutover); split; congruence.
  - now rewrite less_irrefl.
Qed.

(** ** The package variables stay one-target documents *)

Lemma config_init_document (w : template) :
  config_init w = document (path_of w) "" "" "".
Proof. destruct w; reflexivity. Qed.

Lemma filled_init (w : template) : filled w (config_init w).
Proof. exists "", "", "". apply config_init_document. Qed.

Lemma consistent_config (w : template) (p : process) :
  consistent p -> filled w (config w p).
Proof. intros [Hl Hd]. destruct w; assumption. Qed.

Lemma consistent_store (w : template) (c : PrometheusConfig) (p : process) :
  consistent p -> filled w c -> consistent (store w c p).
Proof. intros [Hl Hd] Hc. destruct w; split; assumption. Qed.

Lemma config_store (w : template) (c : PrometheusConfig) (p : process) :
  config w (store w c p) = c.
Proof. destruct w; reflexivity. Qed.

Lemma store_store (w : template) (c c' : PrometheusConfig) (p : process) :
  store w c' (store w c p) = store w c' p.
Proof. destruct w; reflexivity. Qed.

(** On a one-target document the three assignments succeed, and leave
    the document of the new token, scheme and host with the old path. *)
Lemma assemble_document (w : template) (token scheme host : string)
    (path t0 s0 h0 : string) (p : process) :
  config w p = document path t0 s0 h0 ->
  assemble w token scheme host p =
    (Returned (document path token scheme host),
     store w (document path token scheme host) p).
Proof.
  intros Hc. unfold assemble, assign, load, mbind, M_bind.
  rewrite Hc. cbn. rewrite !config_store. cbn. rewrite !config_store. cbn.
  now rewrite !store_store, config_store.
Qed.

Lemma assemble_consistent (w : template) (token scheme host : string) (p : process) :
  consistent p ->
  assemble w token scheme host p =
    (Returned (document (path_of w) token scheme host),
     store w (document (path_of w) token scheme host) p).
Proof.
  intros Hp. destruct (consistent_config w p Hp) as (t0 & s0 & h0 & Hc).
  now apply assemble_document with t0 s0 h0.
Qed.

Create HintDb proc discriminated.

Lemma untouched_ret {A : Type} (a : A) : untouched (mret a : M A).
Proof. intros p p' o H. injection H as _ <-. now split. Qed.

Lemma untouched_bind {A B : Type} (m : M A) (f : A -> M B) :
  untouched m -> (forall a, untouched (f a)) -> untouched (m ≫= f).
Proof.
  intros Hm Hf p p' o. unfold mbind, M_bind.
  destruct (m p) as [[a | s | msg] p1] eqn:Hmp; intros H.
  - destruct (Hm _ _ _ Hmp) as [E1 E2]. destruct (Hf a _ _ _ H) as [E3 E4].
    split; congruence.
  - injection H as _ <-. exact (Hm _ _ _ Hmp).
  - injection H as _ <-. exact (Hm _ _ _ Hmp).
Qed.

Lemma untouched_exit {A : Type} (status : Z) : untouched (exit status : M A).
Proof. intros p p' o H. injection H as _ <-. now split. Qed.

Lemma untouched_panic {A : Type} (msg : string) : untouched (panic msg : M A).
Proof. intros p p' o H. injection H as _ <-. now split. Qed.

Lemma untouched_Println (s : string) : untouched (Println s).
Proof. intros p p' o H. injection H as _ <-. now split. Qed.

Lemma untouched_diagnose (s : string) : untouched (diagnose s).
Proof. intros p p' o H. injection H as _ <-. now split. Qed.

Lemma untouched_SetColor (tag : string) (c : console.Color) : untouched (SetColor tag c).
Proof. intros p p' o H. injection H as _ <-. now split. Qed.

Lemma untouched_getTheme : untouched getTheme.
Proof. intros p p' o H. injection H as _ <-. now split. Qed.

#[export] Hint Resolve untouched_ret untouched_exit untouched_panic untouched_Println
  untouched_diagnose untouched_SetColor untouched_getTheme : proc.

(** Goals [untouched m] and [keeps m], by the structure of [m]. *)
Ltac proc :=
  repeat first
    [ progress auto with proc
    | apply untouched_bind; [| intros ?]
    | match goal with
      | |- untouched (match ?x with _ => _ end) => destruct x
      | |- untouched (if ?b then _ else _) => destruct b
      | |- untouched (let '(_, _) := ?x in _) => destruct x
      end ].

Lemma untouched_fatalIf (err : probe_Error) (msg : string) : untouched (fatalIf err msg).
Proof. unfold fatalIf. proc. Qed.

#[export] Hint Resolve untouched_fatalIf : proc.

Lemma untouched_PrometheusConfig_JSON (c : PrometheusConfig) :
  untouched (PrometheusConfig_JSON c).
Proof. unfold PrometheusConfig_JSON. proc. Qed.

Lemma untouched_StatConfig_JSON (t : StatConfig) : untouched (StatConfig_JSON t).
Proof. unfold StatConfig_JSON. proc. Qed.

Lemma untouched_Colorize (E : Collaborators) (tag data : string) :
  untouched (Colorize E tag data).
Proof. unfold Colorize. proc. Qed.

#[export] Hint Resolve untouched_PrometheusConfig_JSON untouched_StatConfig_JSON
  untouched_Colorize : proc.

Lemma untouched_PrometheusConfig_String (E : Collaborators) (c : PrometheusConfig) :
  untouched (PrometheusConfig_String E c).
Proof. unfold PrometheusConfig_String. proc. Qed.

Lemma untouched_StatConfig_String (E : Collaborators) (t : StatConfig) :
  untouched (StatConfig_String E t).
Proof. unfold StatConfig_String. proc. Qed.

#[export] Hint Resolve untouched_PrometheusConfig_String untouched_StatConfig_String : proc.

Lemma untouched_printMsg (E : Collaborators) (c : PrometheusConfig) :
  untouched (printMsg E (H := PrometheusConfig_message E) c).
Proof. unfold printMsg, message_JSON, message_String, PrometheusConfig_message. proc. Qed.

Lemma untouched_checkAdminPrometheusSyntax (args : list string) :
  untouched (checkAdminPrometheusSyntax args).
Proof. unfold checkAdminPrometheusSyntax. proc. Qed.

#[export] Hint Resolve untouched_printMsg untouched_checkAdminPrometheusSyntax : proc.

Lemma untouched_keeps {A : Type} (m : M A) : untouched m -> keeps m.
Proof.
  intros Hm p p' o [Hl Hd] H. destruct (Hm _ _ _ H) as [El Ed].
  split; [now rewrite El | now rewrite Ed].
Qed.

Lemma keeps_bind {A B : Type} (m : M A) (f : A -> M B) :
  keeps m -> (forall a, keeps (f a)) -> keeps (m ≫= f).
Proof.
  intros Hm Hf p p' o Hp. unfold mbind, M_bind.
  destruct (m p) as [[a | s | msg] p1] eqn:Hmp; intros H.
  - exact (Hf a _ _ _ (Hm _ _ _ Hp Hmp) H).
  - injection H as _ <-. exact (Hm _ _ _ Hp Hmp).
  - injection H as _ <-. exact (Hm _ _ _ Hp Hmp).
Qed.

Lemma keeps_assemble (w : template) (token scheme host : string) :
  keeps (assemble w token scheme host).
Proof.
  intros p p' o Hp. rewrite (assemble_consistent _ _ _ _ _ Hp).
  intros H. injection H as _ <-. apply consistent_store; [assumption|].
  now exists token, scheme, host.
Qed.

Lemma keeps_generatePrometheusConfig (E : Collaborators) (args : list string) :
  keeps (generatePrometheusConfig E args).
Proof.
  unfold generatePrometheusConfig.
  apply keeps_bind; [apply untouched_keeps; proc | intros _].
  destruct (mustGetHostConfig E _) as [hostConfig|]; [|apply untouched_keeps; proc].
  destruct (url_Parse E _) as [u|]; [|apply untouched_keeps; proc].
  destruct (mint E _ _ _ _) as [token|]; [|apply untouched_keeps; proc].
  destruct (newAdminClient E _) as [client|]; [|apply untouched_keeps; proc].
  apply keeps_bind; [apply untouched_keeps; proc | intros _].
  destruct (go_pair _ _) as [info e].
  apply keeps_bind; [apply untouched_keeps; proc | intros _].
  destruct (madmin.Servers info !! 0%nat) as [server|]; [|apply untouched_keeps; proc].
  apply keeps_bind; [apply keeps_assemble | intros doc].
  apply untouched_keeps. proc.
Qed.

Lemma keeps_mainAdminPrometheusGenerate (E : Collaborators) (args : list string) :
  keeps (mainAdminPrometheusGenerate E args).
Proof.
  unfold mainAdminPrometheusGenerate.
  apply keeps_bind; [apply untouched_keeps; proc | intros _].
  apply keeps_bind; [apply untouched_keeps; proc | intros _].
  apply keeps_bind; [apply keeps_generatePrometheusConfig | intros err].
  apply untouched_keeps. proc.
Qed.

(** In every state of a process the two package variables are one-target
    documents with their own metrics paths. *)
Lemma reachable_consistent (p : process) : reachable p -> consistent p.
Proof.
  induction 1 as [theme out err | E args p p' o _ IH H | E args p p' o _ IH H
                  | w token scheme host p p' o _ IH H].
  - split; [apply (filled_init Legacy) | apply (filled_init Current)].
  - exact (keeps_mainAdminPrometheusGenerate E args _ _ _ IH H).
  - exact (keeps_generatePrometheusConfig E args _ _ _ IH H).
  - exact (keeps_assemble w token scheme host _ _ _ IH H).
Qed.

(** X1.  In every state of a process the legacy variable is a one-target
    document of job [minio-job] with path [/minio/prometheus/metrics] and
    the current variable one with path [/minio/v2/metrics/cluster]: the
    in-place writes never change the shape, the job name or the path. *)
Theorem package_variables_invariant (p : process) :
  reachable p ->
  exists token1 scheme1 host1 token2 scheme2 host2 : string,
    legacyConfig p =
      one_target "minio-job" token1 "/minio/prometheus/metrics" scheme1 host1 /\
    defaultConfig p =
      one_target "minio-job" token2 "/minio/v2/metrics/cluster" scheme2 host2.
Proof.
  intros Hp. apply reachable_consistent in Hp.
  destruct Hp as [(t1 & s1 & h1 & H1) (t2 & s2 & h2 & H2)].
  now exists t1, s1, h1, t2, s2, h2.
Qed.

(** The invariant after a run of the handler from the start. *)
Lemma package_variables_invariant_after_a_run :
  exists token1 scheme1 host1 token2 scheme2 host2 : string,
    legacyConfig (snd (mainAdminPrometheusGenerate Sample.usual ["play"] start)) =
      one_target "minio-job" token1 "/minio/prometheus/metrics" scheme1 host1 /\
    defaultConfig (snd (mainAdminPrometheusGenerate Sample.usual ["play"] start)) =
      one_target "minio-job" token2 "/minio/v2/metrics/cluster" scheme2 host2.
Proof.
  apply package_variables_invariant.
  apply (reachable_main Sample.usual ["play"] start _
           (fst (mainAdminPrometheusGenerate Sample.usual ["play"] start))).
  - apply reachable_start.
  - apply surjective_pairing.
Defined.

(** ** Assembly *)

(** Whatever the variable holds, the three assignments either panic or
    change exactly three things in it: the token and the scheme of the
    first scrape configuration and the first target of its first static
    configuration.  Everything else, the job name and the metrics path
    included, is as before. *)
Lemma assemble_changes (w : template) (token scheme host : string)
    (p p' : process) (doc : PrometheusConfig) :
  assemble w token scheme host p = (Returned doc, p') ->
  exists (sc0 : ScrapeConfig) (scs : list ScrapeConfig)
         (st0 : StatConfig) (sts : list StatConfig)
         (t0 : string) (ts : list string),
    ScrapeConfigs (config w p) = sc0 :: scs /\
    StaticConfigs sc0 = st0 :: sts /\
    Targets st0 = t0 :: ts /\
    p' = store w doc p /\
    doc = {| ScrapeConfigs :=
               {| JobName := JobName sc0; BearerToken := token;
                  MetricsPath := MetricsPath sc0; Scheme := scheme;
                  StaticConfigs := {| Targets := host :: ts |} :: sts |} :: scs |}.
Proof.
  unfold assemble, assign, load, mbind, M_bind.
  destruct (config w p) as [[|sc0 scs]] eqn:Hc; cbn; [discriminate|].
  rewrite config_store. cbn.
  rewrite config_store. cbn.
  destruct sc0 as [job tok path sch [|st0 sts]]; cbn; [discriminate|].
  destruct st0 as [[|t0 ts]]; cbn; [discriminate|].
  rewrite !store_store, config_store.
  intros H. injection H as <- <-.
  exists (mkScrapeConfig job tok path sch (mkStatConfig (t0 :: ts) :: sts)), scs,
         (mkStatConfig (t0 :: ts)), sts, t0, ts.
  repeat split; reflexivity.
Qed.

(** C6.  In every state of a process, for every template, token, scheme
    and host, the assignments succeed, and three documents differ in
    their token, scheme and target only: the initial literal of the
    template, the variable as it was before the call, and the assembled
    document, which is also what the variable holds after the call.  The
    job name and the metrics path are the same in all three, and the call
    changes nothing else in the process. *)
Theorem assemble_carries_template (w : template) (token scheme host : string)
    (p : process) :
  reachable p ->
  exists (job path token0 scheme0 host0 : string) (p' : process),
    config_init w = one_target job "" path "" "" /\
    config w p = one_target job token0 path scheme0 host0 /\
    assemble w token scheme host p =
      (Returned (one_target job token path scheme host), p') /\
    config w p' = one_target job token path scheme host /\
    config (other w) p' = config (other w) p /\
    Theme p' = Theme p /\ stdout p' = stdout p /\ stderr p' = stderr p.
Proof.
  intros Hp. apply reachable_consistent in Hp.
  destruct (consistent_config w p Hp) as (t0 & s0 & h0 & Hc).
  exists defaultJobName, (path_of w), t0, s0, h0. eexists.
  split; [apply config_init_document|].
  split; [exact Hc|].
  split; [exact (assemble_consistent w _ _ _ p Hp)|].
  destruct w; repeat split.
Qed.

(** The theorem at the start of a process, for the current template. *)
Lemma assemble_carries_template_start :
  exists (job path token0 scheme0 host0 : string) (p' : process),
    config_init Current = one_target job "" path "" "" /\
    config Current start = one_target job token0 path scheme0 host0 /\
    assemble Current "T" "http" "play.min.io:9000" start =
      (Returned (one_target job "T" path "http" "play.min.io:9000"), p') /\
    config Current p' = one_target job "T" path "http" "play.min.io:9000" /\
    config (other Current) p' = config (other Current) start /\
    Theme p' = Theme start /\ stdout p' = stdout start /\ stderr p' = stderr start.
Proof.
  apply (assemble_carries_template Current "T" "http" "play.min.io:9000" start).
  apply reachable_start.
Defined.

(** C7.  The two literals are the legacy and the current template: job
    [minio-job] with path [/minio/prometheus/metrics], and job
    [minio-job] with path [/minio/v2/metrics/cluster], each with one
    scrape configuration whose token and scheme are empty and whose one
    target is the empty host; and the metrics path of every document
    assembled in a process is one of the two. *)
Theorem templates_and_metrics_paths :
  legacyConfig_init =
    {| ScrapeConfigs :=
         [ {| JobName := "minio-job"; BearerToken := "";
              MetricsPath := "/minio/prometheus/metrics"; Scheme := "";
              StaticConfigs := [ {| Targets := [ "" ] |} ] |} ] |} /\
  defaultConfig_init =
    {| ScrapeConfigs :=
         [ {| JobName := "minio-job"; BearerToken := "";
              MetricsPath := "/minio/v2/metrics/cluster"; Scheme := "";
              StaticConfigs := [ {| Targets := [ "" ] |} ] |} ] |} /\
  forall (w : template) (token scheme host : string) (p p' : process)
         (doc : PrometheusConfig) (sc : ScrapeConfig),
    reachable p ->
    assemble w token scheme host p = (Returned doc, p') ->
    sc ∈ ScrapeConfigs doc ->
    MetricsPath sc = "/minio/prometheus/metrics" \/
    MetricsPath sc = "/minio/v2/metrics/cluster".
Proof.
  split; [reflexivity | split; [reflexivity|]].
  intros w token scheme host p p' doc sc Hp Ha Hsc.
  apply reachable_consistent in Hp.
  rewrite (assemble_consistent w _ _ _ p Hp) in Ha. injection Ha as <- _.
  cbn in Hsc. apply list_elem_of_singleton in Hsc. subst sc. cbn.
  destruct w; [left | right]; reflexivity.
Qed.

(** The theorem on the legacy template, filled at the start of a
    process. *)
Lemma templates_and_metrics_paths_start :
  MetricsPath
    {| JobName := "minio-job"; BearerToken := "T";
       MetricsPath := "/minio/prometheus/metrics"; Scheme := "http";
       StaticConfigs := [ {| Targets := [ "play.min.io:9000" ] |} ] |} =
    "/minio/prometheus/metrics" \/
  MetricsPath
    {| JobName := "minio-job"; BearerToken := "T";
       MetricsPath := "/minio/prometheus/metrics"; Scheme := "http";
       StaticConfigs := [ {| Targets := [ "play.min.io:9000" ] |} ] |} =
    "/minio/v2/metrics/cluster".
Proof.
  apply (proj2 (proj2 templates_and_metrics_paths)
           Legacy "T" "http" "play.min.io:9000" start
           (store Legacy (document legacyMetricsPath "T" "http" "play.min.io:9000") start)
           (document legacyMetricsPath "T" "http" "play.min.io:9000")).
  - apply reachable_start.
  - reflexivity.
  - apply list_elem_of_here.
Defined.

(** C9.  The assembled document is a function of the template, the
    token, the scheme and the host alone: from any two states of a
    process, whatever ran before, the same inputs give the same document,
    and a second call with the same inputs right after the first gives it
    again and leaves the state as the first call left it. *)
Theorem assemble_depends_on_inputs_only (w : template) (token scheme host : string)
    (p1 p2 : process) :
  reachable p1 -> reachable p2 ->
  exists (doc : PrometheusConfig) (q1 q2 : process),
    assemble w token scheme host p1 = (Returned doc, q1) /\
    assemble w token scheme host p2 = (Returned doc, q2) /\
    assemble w token scheme host q1 = (Returned doc, q1).
Proof.
  intros H1 H2.
  pose proof (reachable_consistent _ H1) as C1.
  pose proof (reachable_consistent _ H2) as C2.
  eexists _, _, _.
  split; [exact (assemble_consistent w _ _ _ p1 C1)|].
  split; [exact (assemble_consistent w _ _ _ p2 C2)|].
  rewrite (assemble_document w token scheme host (path_of w) token scheme host).
  - now rewrite store_store.
  - apply config_store.
Qed.

(** The theorem at the start of a process and after a run of the handler
    that filled the same variable with another token and host. *)
Lemma assemble_depends_on_inputs_only_after_a_run :
  exists (doc : PrometheusConfig) (q1 q2 : process),
    assemble Current "T" "http" "play.min.io:9000" start = (Returned doc, q1) /\
    assemble Current "T" "http" "play.min.io:9000"
      (snd (mainAdminPrometheusGenerate Sample.usual ["play"] start)) =
      (Returned doc, q2) /\
    assemble Current "T" "http" "play.min.io:9000" q1 = (Returned doc, q1).
Proof.
  apply assemble_depends_on_inputs_only.
  - apply reachable_start.
  - apply (reachable_main Sample.usual ["play"] start _
             (fst (mainAdminPrometheusGenerate Sample.usual ["play"] start))).
    + apply reachable_start.
    + apply surjective_pairing.
Defined.

(** ** The JSON renderer *)

Lemma PrometheusConfig_JSON_first (c : PrometheusConfig) (sc : ScrapeConfig) (p : process) :
  ScrapeConfigs c !! 0%nat = Some sc ->
  PrometheusConfig_JSON c p =
    (Returned (JSON.encode "" " " 0 (JSON.of_ScrapeConfig sc)), p).
Proof. intros H. unfold PrometheusConfig_JSON. now rewrite H. Qed.

Lemma PrometheusConfig_JSON_empty (c : PrometheusConfig) (p : process) :
  ScrapeConfigs c = [] ->
  PrometheusConfig_JSON c p = (Panicked index_out_of_range, p).
Proof. intros H. unfold PrometheusConfig_JSON. now rewrite H. Qed.

Lemma StatConfig_JSON_targets (t : StatConfig) (p : process) :
  StatConfig_JSON t p = (Returned (JSON.encode "" " " 0 (JSON.of_Targets (Targets t))), p).
Proof. reflexivity. Qed.

(** ** The structured renderer *)

Lemma PrometheusConfig_String_total (E : Collaborators) (c : PrometheusConfig) (p : process) :
  PrometheusConfig_String E c p =
    (Returned
       match YAML.Marshal (yaml_scalar E) c with
       | Err err => "error creating config string: " ++ err
       | Ok b => console.Colorize (isTerminal E) (Theme p) "yaml" b
       end, p).
Proof.
  unfold PrometheusConfig_String. destruct (YAML.Marshal _ c); reflexivity.
Qed.

(** Colouring wraps the text and leaves it whole. *)
Lemma Colorize_Contains (isTerminal : bool) (theme : gmap string console.Color)
    (tag data : string) :
  Contains (console.Colorize isTerminal theme tag data) data.
Proof.
  unfold console.Colorize. destruct isTerminal; [|apply Contains_refl].
  destruct (theme !! tag) as [c|]; [|apply Contains_refl].
  now exists (console.format c), (console.unformat c).
Qed.

(** C10.  The JSON renderer is partial: on the document with no scrape
    configuration it indexes the first one unguarded and panics with an
    index out of range, and it panics on no other document; the
    structured renderer returns a text for every document, in every state
    and whatever the collaborators do. *)
Theorem JSON_partial_String_total :
  (forall p : process,
     PrometheusConfig_JSON {| ScrapeConfigs := [] |} p =
       (Panicked "runtime error: index out of range [0] with length 0", p)) /\
  (forall (c : PrometheusConfig) (p : process),
     (exists msg, PrometheusConfig_JSON c p = (Panicked msg, p)) <-> ScrapeConfigs c = []) /\
  (forall (E : Collaborators) (c : PrometheusConfig) (p : process),
     exists s : string, PrometheusConfig_String E c p = (Returned s, p)).
Proof.
  split; [reflexivity | split].
  - intros c p. split.
    + intros [msg H]. destruct (ScrapeConfigs c) as [|sc scs] eqn:Hc; [reflexivity|].
      rewrite (PrometheusConfig_JSON_first c sc) in H by now rewrite Hc.
      discriminate.
    + intros Hc. eexists. now apply PrometheusConfig_JSON_empty.
  - intros E c p. eexists. apply PrometheusConfig_String_total.
Qed.

(** ** The handler, path by path *)

Section Paths.

Context (E : Collaborators) (args : list string).

(** The alias the run is about (line 157). *)
Let alias : string := cleanAlias E (Args_Get0 args).

(** The token line 180 signs for a host configuration. *)
Let token_of (hostConfig : HostConfig) : result string :=
  mint E (AccessKey hostConfig) (SecretKey hostConfig) (UTCNow E)
    defaultPrometheusJWTExpiry.

Lemma generate_invalid_alias :
  isValidAlias E alias = false ->
  exists msg, forall p, generatePrometheusConfig E args p = fatal msg p.
Proof.
  intros H. eexists. intros p. unfold generatePrometheusConfig. fold alias.
  rewrite H. reflexivity.
Qed.

Lemma generate_unknown_alias :
  isValidAlias E alias = true ->
  mustGetHostConfig E alias = None ->
  exists msg, forall p, generatePrometheusConfig E args p = fatal msg p.
Proof.
  intros H1 H2. eexists. intros p. unfold generatePrometheusConfig. fold alias.
  rewrite H1, H2. reflexivity.
Qed.

Lemma generate_url_error (hostConfig : HostConfig) (err : error) :
  isValidAlias E alias = true ->
  mustGetHostConfig E alias = Some hostConfig ->
  url_Parse E (URL hostConfig) = Err err ->
  forall p, generatePrometheusConfig E args p = (Returned (Some err), p).
Proof.
  intros H1 H2 H3 p. unfold generatePrometheusConfig. fold alias.
  now rewrite H1, H2, H3.
Qed.

Lemma generate_sign_error (hostConfig : HostConfig) (u : url.URL) (err : error) :
  isValidAlias E alias = true ->
  mustGetHostConfig E alias = Some hostConfig ->
  url_Parse E (URL hostConfig) = Ok u ->
  token_of hostConfig = Err err ->
  forall p, generatePrometheusConfig E args p = (Returned (Some err), p).
Proof.
  intros H1 H2 H3 H4 p. unfold generatePrometheusConfig. fold alias.
  unfold token_of in H4. now rewrite H1, H2, H3, H4.
Qed.

Lemma generate_client_error (hostConfig : HostConfig) (u : url.URL)
    (token : string) (cerr : error) :
  isValidAlias E alias = true ->
  mustGetHostConfig E alias = Some hostConfig ->
  url_Parse E (URL hostConfig) = Ok u ->
  token_of hostConfig = Ok token ->
  newAdminClient E alias = Err cerr ->
  exists msg, forall p, generatePrometheusConfig E args p = fatal msg p.
Proof.
  intros H1 H2 H3 H4 H5. eexists. intros p.
  unfold generatePrometheusConfig. fold alias.
  unfold token_of in H4. rewrite H1, H2, H3, H4, H5. reflexivity.
Qed.

Lemma generate_info_error (hostConfig : HostConfig) (u : url.URL)
    (token : string) (client : AdminClient E) (e : error) :
  isValidAlias E alias = true ->
  mustGetHostConfig E alias = Some hostConfig ->
  url_Parse E (URL hostConfig) = Ok u ->
  token_of hostConfig = Ok token ->
  newAdminClient E alias = Ok client ->
  ServerInfo E client = Err e ->
  exists msg, forall p, generatePrometheusConfig E args p = fatal msg p.
Proof.
  intros H1 H2 H3 H4 H5 H6. eexists. intros p.
  unfold generatePrometheusConfig. fold alias.
  unfold token_of in H4. rewrite H1, H2, H3, H4, H5, H6. reflexivity.
Qed.

(** A server information with no server in it: line 191 indexes the
    first one and panics. *)
Lemma generate_no_server (hostConfig : HostConfig) (u : url.URL)
    (token : string) (client : AdminClient E) (info : madmin.InfoMessage) :
  isValidAlias E alias = true ->
  mustGetHostConfig E alias = Some hostConfig ->
  url_Parse E (URL hostConfig) = Ok u ->
  token_of hostConfig = Ok token ->
  newAdminClient E alias = Ok client ->
  ServerInfo E client = Ok info ->
  madmin.Servers info !! 0%nat = None ->
  forall p, generatePrometheusConfig E args p = (Panicked index_out_of_range, p).
Proof.
  intros H1 H2 H3 H4 H5 H6 H7 p. unfold generatePrometheusConfig. fold alias.
  unfold token_of in H4. rewrite H1, H2, H3, H4, H5, H6. cbn. now rewrite H7.
Qed.

Lemma printMsg_document (path token scheme host : string) (p : process) :
  let doc := document path token scheme host in
  printMsg E (H := PrometheusConfig_message E) doc p =
    (Returned tt,
     {| legacyConfig := legacyConfig p; defaultConfig := defaultConfig p;
        Theme := Theme p; stdout := stdout p ++ [rendering E (Theme p) doc];
        stderr := stderr p |}).
Proof.
  intros doc. unfold printMsg, rendering, mbind, M_bind. cbn.
  destruct (globalJSON E).
  - reflexivity.
  - rewrite PrometheusConfig_String_total. reflexivity.
Qed.

(** The run that gets through: the picked variable is filled and printed
    once, and the call returns nil. *)
Lemma generate_prints (p : process) (hostConfig : HostConfig) (u : url.URL)
    (token : string) (client : AdminClient E) (info : madmin.InfoMessage)
    (server : madmin.ServerProperties) :
  consistent p ->
  isValidAlias E alias = true ->
  mustGetHostConfig E alias = Some hostConfig ->
  url_Parse E (URL hostConfig) = Ok u ->
  token_of hostConfig = Ok token ->
  newAdminClient E alias = Ok client ->
  ServerInfo E client = Ok info ->
  madmin.Servers info !! 0%nat = Some server ->
  let w := selectTemplate (madmin.Version server) in
  let doc := document (path_of w) token (url.Scheme u) (url.Host u) in
  let q := store w doc p in
  generatePrometheusConfig E args p =
    (Returned None,
     {| legacyConfig := legacyConfig q; defaultConfig := defaultConfig q;
        Theme := Theme p; stdout := stdout p ++ [rendering E (Theme p) doc];
        stderr := stderr p |}).
Proof.
  intros Hp H1 H2 H3 H4 H5 H6 H7 w doc q.
  unfold generatePrometheusConfig. fold alias.
  unfold token_of in H4. rewrite H1, H2, H3, H4, H5, H6. cbn. rewrite H7.
  unfold mbind at 1, M_bind at 1. cbn.
  unfold mbind at 1, M_bind at 1. cbn.
  unfold mbind at 1, M_bind at 1. cbn.
  unfold mbind at 1, M_bind at 1.
  rewrite (assemble_consistent _ _ _ _ _ Hp). fold w doc q.
  unfold mbind, M_bind. unfold doc at 1. rewrite printMsg_document. fold doc.
  destruct w; reflexivity.
Qed.

End Paths.

(** ** The handler as a whole *)

(** With one argument the handler sets the colour, runs
    [generatePrometheusConfig] and returns nil whatever that returned. *)
Lemma main_one_argument (E : Collaborators) (arg : string) (p : process) :
  mainAdminPrometheusGenerate E [arg] p =
    match generatePrometheusConfig E [arg] (themed p) with
    | (Returned _, p') => (Returned None, p')
    | (Exited status, p') => (Exited status, p')
    | (Panicked msg, p') => (Panicked msg, p')
    end.
Proof.
  unfold mainAdminPrometheusGenerate, mbind, M_bind. cbn. fold (themed p).
  destruct (generatePrometheusConfig E [arg] (themed p)) as [[[e|] | s | msg] p'];
    reflexivity.
Qed.

(** With another number of arguments it shows the help and exits with
    status 1. *)
Lemma main_usage (E : Collaborators) (args : list string) :
  length args <> 1%nat ->
  exists msg, forall p, mainAdminPrometheusGenerate E args p = fatal msg (themed p).
Proof.
  intros H. eexists. intros p.
  unfold mainAdminPrometheusGenerate, checkAdminPrometheusSyntax, mbind, M_bind.
  cbn. fold (themed p).
  destruct (Nat.eqb_spec (length args) 1) as [Heq|_]; [contradiction|].
  reflexivity.
Qed.

Lemma themed_consistent (p : process) : consistent p -> consistent (themed p).
Proof. intros H. exact H. Qed.

(** X2.  A failure to resolve the alias, to make the admin client or to
    get the server information ends the process with status 1, with
    nothing printed and the package variables as they were. *)
Theorem fatal_failures_exit_nonzero (E : Collaborators) (arg : string) (p : process) :
  fatal_failure E (cleanAlias E arg) ->
  exists (p' : process),
    mainAdminPrometheusGenerate E [arg] p = (Exited 1, p') /\
    exitStatus (Exited 1) <> 0%Z /\
    stdout p' = stdout p /\
    legacyConfig p' = legacyConfig p /\ defaultConfig p' = defaultConfig p.
Proof.
  intros H. rewrite main_one_argument.
  assert (exists msg, forall q, generatePrometheusConfig E [arg] q = fatal msg q)
    as [msg ->].
  { destruct (isValidAlias E (cleanAlias E arg)) eqn:Hv.
    - destruct H as [H | H | hc u token cerr H2 H3 H4 H5 | hc u token client e H2 H3 H4 H5 H6].
      + congruence.
      + now apply generate_unknown_alias.
      + now apply generate_client_error with hc u token cerr.
      + now apply generate_info_error with hc u token client e.
    - now apply generate_invalid_alias. }
  eexists. split; [reflexivity|]. cbn. repeat split. discriminate.
Qed.

(** X14.  A failure to parse the URL of the alias or to sign the token
    is returned by [generatePrometheusConfig] and dropped by the handler,
    which returns nil: the run ends as a success, with exit status 0,
    nothing printed, no diagnostic, and the package variables as they
    were. *)
Lemma returned_errors_are_dropped (E : Collaborators) (arg : string) (p : process) :
  returned_failure E (cleanAlias E arg) ->
  mainAdminPrometheusGenerate E [arg] p = (Returned None, themed p) /\
  exitStatus (Returned None) = 0%Z.
Proof.
  intros H. rewrite main_one_argument. split; [|reflexivity].
  destruct H as [hc err H1 H2 H3 | hc u err H1 H2 H3 H4].
  - now rewrite (generate_url_error E [arg] hc err).
  - now rewrite (generate_sign_error E [arg] hc u err).
Qed.

(** X3.  A run that gets through (the alias resolves, its URL parses, the
    token is signed, the server answers with at least one server) returns
    nil and prints exactly one text: the rendering of the template picked
    by the version of the first server, filled with the token, the scheme
    and the host, which is also what the picked variable holds after. *)
Theorem success_prints_one_document (E : Collaborators) (arg : string) (p : process)
    (hostConfig : HostConfig) (u : url.URL) (token : string) (client : AdminClient E)
    (info : madmin.InfoMessage) (server : madmin.ServerProperties) :
  let alias := cleanAlias E arg in
  reachable p ->
  isValidAlias E alias = true ->
  mustGetHostConfig E alias = Some hostConfig ->
  url_Parse E (URL hostConfig) = Ok u ->
  mint E (AccessKey hostConfig) (SecretKey hostConfig) (UTCNow E)
    defaultPrometheusJWTExpiry = Ok token ->
  newAdminClient E alias = Ok client ->
  ServerInfo E client = Ok info ->
  madmin.Servers info !! 0%nat = Some server ->
  let w := selectTemplate (madmin.Version server) in
  let doc := document (path_of w) token (url.Scheme u) (url.Host u) in
  exists (p' : process),
    mainAdminPrometheusGenerate E [arg] p = (Returned None, p') /\
    stdout p' = (stdout p ++ [rendering E (Theme (themed p)) doc])%list /\
    config w p' = doc.
Proof.
  intros alias Hp H1 H2 H3 H4 H5 H6 H7 w doc.
  rewrite main_one_argument.
  rewrite (generate_prints E [arg] (themed p) hostConfig u token client info server);
    try assumption.
  - eexists. split; [reflexivity|]. split; [reflexivity|].
    fold w. fold doc. destruct w; reflexivity.
  - apply themed_consistent, reachable_consistent, Hp.
Qed.

(** *** What a run does to the process *)

Lemma themed_after (p : process) : themed p = after None [] [] p.
Proof. unfold themed, after. cbn. now rewrite !app_nil_r. Qed.

Lemma fatal_after (msg : string) (p : process) :
  fatal msg (themed p) = (Exited 1, after None [] [msg] p).
Proof. unfold fatal, themed, after. cbn. now rewrite !app_nil_r. Qed.

(** The colour of tag [yaml] is the one the handler has just set,
    whatever the theme was. *)
Lemma rendering_themed (E : Collaborators) (c : console.Color)
    (theme : gmap string console.Color) (doc : PrometheusConfig) :
  rendering E (<["yaml" := c]> theme) doc = rendering E {["yaml" := c]} doc.
Proof.
  unfold rendering, console.Colorize.
  now rewrite lookup_insert_eq, lookup_singleton_eq.
Qed.

(** The outcome of a run of the handler, what it writes and what it
    stores are fixed by the collaborators and the arguments: they are the
    same from every state in which the package variables are one-target
    documents. *)
Lemma handler_effect (E : Collaborators) (args : list string) :
  exists (o : outcome (option error)) (fill : option (template * PrometheusConfig))
         (out diag : list string),
    length out <= 1 /\
    forall p : process,
      consistent p ->
      mainAdminPrometheusGenerate E args p = (o, after fill out diag p).
Proof.
  destruct args as [|arg [|arg2 rest]].
  - destruct (main_usage E []) as [msg H]; [discriminate|].
    exists (Exited 1), None, [], [msg]. split; [cbn; lia|]. intros p _. now rewrite H, fatal_after.
  - assert (forall msg,
              (forall q, generatePrometheusConfig E [arg] q = fatal msg q) ->
              forall p, mainAdminPrometheusGenerate E [arg] p
                        = (Exited 1, after None [] [msg] p)) as Hfatal.
    { intros msg H p. now rewrite main_one_argument, H, fatal_after. }
    assert (forall err,
              (forall q, generatePrometheusConfig E [arg] q = (Returned (Some err), q)) ->
              forall p, mainAdminPrometheusGenerate E [arg] p
                        = (Returned None, after None [] [] p)) as Hdrop.
    { intros err H p. now rewrite main_one_argument, H, themed_after. }
    destruct (isValidAlias E (cleanAlias E arg)) eqn:H1.
    2:{ destruct (generate_invalid_alias E [arg] H1) as [msg H].
        exists (Exited 1), None, [], [msg]. split; [cbn; lia|]. intros p _. now apply Hfatal. }
    destruct (mustGetHostConfig E (cleanAlias E arg)) as [hc|] eqn:H2.
    2:{ destruct (generate_unknown_alias E [arg] H1 H2) as [msg H].
        exists (Exited 1), None, [], [msg]. split; [cbn; lia|]. intros p _. now apply Hfatal. }
    destruct (url_Parse E (URL hc)) as [u|err] eqn:H3.
    2:{ exists (Returned None), None, [], []. split; [cbn; lia|]. intros p _.
        apply (Hdrop err). now apply generate_url_error with hc. }
    destruct (mint E (AccessKey hc) (SecretKey hc) (UTCNow E) defaultPrometheusJWTExpiry)
      as [token|err] eqn:H4.
    2:{ exists (Returned None), None, [], []. split; [cbn; lia|]. intros p _.
        apply (Hdrop err). now apply generate_sign_error with hc u. }
    destruct (newAdminClient E (cleanAlias E arg)) as [client|cerr] eqn:H5.
    2:{ destruct (generate_client_error E [arg] hc u token cerr H1 H2 H3 H4 H5) as [msg H].
        exists (Exited 1), None, [], [msg]. split; [cbn; lia|]. intros p _. now apply Hfatal. }
    destruct (ServerInfo E client) as [info|e] eqn:H6.
    2:{ destruct (generate_info_error E [arg] hc u token client e H1 H2 H3 H4 H5 H6)
          as [msg H].
        exists (Exited 1), None, [], [msg]. split; [cbn; lia|]. intros p _. now apply Hfatal. }
    destruct (madmin.Servers info !! 0%nat) as [server|] eqn:H7.
    2:{ exists (Panicked index_out_of_range), None, [], []. split; [cbn; lia|]. intros p _.
        rewrite main_one_argument.
        rewrite (generate_no_server E [arg] hc u token client info H1 H2 H3 H4 H5 H6 H7).
        now rewrite themed_after. }
    set (w := selectTemplate (madmin.Version server)).
    set (doc := document (path_of w) token (url.Scheme u) (url.Host u)).
    exists (Returned None), (Some (w, doc)),
           [rendering E {["yaml" := console.color_New console.FgGreen]} doc], [].
    split; [cbn; lia|]. intros p Hp. rewrite main_one_argument.
    rewrite (generate_prints E [arg] (themed p) hc u token client info server);
      try assumption.
    fold w. fold doc. unfold themed at 2 3 4 5. cbn [Theme stdout stderr].
    rewrite rendering_themed. unfold after. rewrite app_nil_r.
    destruct w; reflexivity.
  - destruct (main_usage E (arg :: arg2 :: rest)) as [msg H]; [discriminate|].
    exists (Exited 1), None, [], [msg]. split; [cbn; lia|]. intros p _. now rewrite H, fatal_after.
Qed.

(** X4.  The handler depends on its inputs only: from any two states of a
    process, whatever ran before, a run with the same collaborators and
    arguments ends in the same way and writes the same texts. *)
Theorem handler_depends_on_inputs_only (E : Collaborators) (args : list string)
    (p1 p2 : process) :
  reachable p1 -> reachable p2 ->
  exists (o : outcome (option error)) (out diag : list string),
    fst (mainAdminPrometheusGenerate E args p1) = o /\
    fst (mainAdminPrometheusGenerate E args p2) = o /\
    stdout (snd (mainAdminPrometheusGenerate E args p1)) = (stdout p1 ++ out)%list /\
    stdout (snd (mainAdminPrometheusGenerate E args p2)) = (stdout p2 ++ out)%list /\
    stderr (snd (mainAdminPrometheusGenerate E args p1)) = (stderr p1 ++ diag)%list /\
    stderr (snd (mainAdminPrometheusGenerate E args p2)) = (stderr p2 ++ diag)%list /\
    length out <= 1.
Proof.
  intros H1 H2. apply reachable_consistent in H1, H2.
  destruct (handler_effect E args) as (o & fill & out & diag & Hlen & H).
  exists o, out, diag. rewrite (H p1 H1), (H p2 H2). cbn.
  repeat split. exact Hlen.
Qed.

(** *** Failures and the exit status *)





(** A URL that does not parse: the error is returned by
    [generatePrometheusConfig] and the handler returns nil. *)
Example unparsable_url_ends_with_status_zero :
  fst (mainAdminPrometheusGenerate Sample.unparsed ["play"] start) = Returned None /\
  stdout (snd (mainAdminPrometheusGenerate Sample.unparsed ["play"] start)) = [] /\
  stderr (snd (mainAdminPrometheusGenerate Sample.unparsed ["play"] start)) = [].
Proof. vm_compute. repeat split. Qed.

(** X2 on an alias that is not configured. *)
Lemma fatal_failures_exit_nonzero_unknown_alias :
  exists (p' : process),
    mainAdminPrometheusGenerate Sample.usual ["nowhere"] start = (Exited 1, p') /\
    exitStatus (Exited 1) <> 0%Z /\
    stdout p' = stdout start /\
    legacyConfig p' = legacyConfig start /\ defaultConfig p' = defaultConfig start.
Proof.
  apply (fatal_failures_exit_nonzero Sample.usual "nowhere" start).
  apply alias_unknown. reflexivity.
Defined.

(** X3 on the usual run. *)
Lemma success_prints_one_document_usual :
  exists (p' : process),
    mainAdminPrometheusGenerate Sample.usual ["play"] start = (Returned None, p') /\
    stdout p' =
      (stdout start ++
       [rendering Sample.usual (Theme (themed start))
          (document (path_of (selectTemplate "2022-01-01T00-00-00Z"))
             "kkkkkkkkkkkkkkkkkkkkkkkkkkkkkkkkkkkkkkkk.p00000000100100101011000000111000.Q3AM3UQ867SPQQA43P2F"
             "https" "play.min.io:9000")])%list /\
    config (selectTemplate "2022-01-01T00-00-00Z") p' =
      document (path_of (selectTemplate "2022-01-01T00-00-00Z"))
        "kkkkkkkkkkkkkkkkkkkkkkkkkkkkkkkkkkkkkkkk.p00000000100100101011000000111000.Q3AM3UQ867SPQQA43P2F"
        "https" "play.min.io:9000".
Proof.
  apply (success_prints_one_document Sample.usual "play" start
           {| URL := "https://play.min.io:9000";
              AccessKey := "Q3AM3UQ867SPQQA43P2F";
              SecretKey := "zuf+tfteSlswRu7BJ86wekitnifILbZam1KYY3TG" |}
           {| url.Scheme := "https"; url.Host := "play.min.io:9000" |}
           "kkkkkkkkkkkkkkkkkkkkkkkkkkkkkkkkkkkkkkkk.p00000000100100101011000000111000.Q3AM3UQ867SPQQA43P2F"
           "play"
           {| madmin.Servers := [ {| madmin.Version := "2022-01-01T00-00-00Z" |} ] |}
           {| madmin.Version := "2022-01-01T00-00-00Z" |});
    try reflexivity.
  apply reachable_start.
Defined.

(** X4 at the start of a process and after a run that printed another
    document. *)
Lemma handler_depends_on_inputs_only_after_a_run :
  exists (o : outcome (option error)) (out diag : list string),
    fst (mainAdminPrometheusGenerate Sample.usual ["play"] start) = o /\
    fst (mainAdminPrometheusGenerate Sample.usual ["play"]
           (snd (mainAdminPrometheusGenerate Sample.keyless ["play"] start))) = o /\
    stdout (snd (mainAdminPrometheusGenerate Sample.usual ["play"] start)) =
      (stdout start ++ out)%list /\
    stdout (snd (mainAdminPrometheusGenerate Sample.usual ["play"]
                   (snd (mainAdminPrometheusGenerate Sample.keyless ["play"] start)))) =
      (stdout (snd (mainAdminPrometheusGenerate Sample.keyless ["play"] start)) ++ out)%list /\
    stderr (snd (mainAdminPrometheusGenerate Sample.usual ["play"] start)) =
      (stderr start ++ diag)%list /\
    stderr (snd (mainAdminPrometheusGenerate Sample.usual ["play"]
                   (snd (mainAdminPrometheusGenerate Sample.keyless ["play"] start)))) =
      (stderr (snd (mainAdminPrometheusGenerate Sample.keyless ["play"] start)) ++ diag)%list /\
    length out <= 1.
Proof.
  apply handler_depends_on_inputs_only.
  - apply reachable_start.
  - apply (reachable_main Sample.keyless ["play"] start _
             (fst (mainAdminPrometheusGenerate Sample.keyless ["play"] start))).
    + apply reachable_start.
    + apply surjective_pairing.
Defined.

(** The examples of the spec: for scheme [https] and host
    [minio.example.com:443], a server that reports version
    2020-01-01T00-00-00Z gets the legacy metrics path in the structured
    output, one that reports 2022-01-01T00-00-00Z the current one, and so
    does one that reports the cutover version itself. *)
Theorem metrics_path_of_the_examples :
  stdout (snd (mainAdminPrometheusGenerate
                 (Sample.reporting "2020-01-01T00-00-00Z") ["play"] start)) =
    [ Join [ "scrape_configs:";
             "- job_name: minio-job";
             "  bearer_token: kkkkkk.p00000000100100101011000000111000.Q3AM3UQ867SPQQA43P2F";
             "  metrics_path: /minio/prometheus/metrics";
             "  scheme: https";
             "  static_configs:";
             "  - targets: ['minio.example.com:443']";
             "" ] LF ] /\
  stdout (snd (mainAdminPrometheusGenerate
                 (Sample.reporting "2022-01-01T00-00-00Z") ["play"] start)) =
    [ Join [ "scrape_configs:";
             "- job_name: minio-job";
             "  bearer_token: kkkkkk.p00000000100100101011000000111000.Q3AM3UQ867SPQQA43P2F";
             "  metrics_path: /minio/v2/metrics/cluster";
             "  scheme: https";
             "  static_configs:";
             "  - targets: ['minio.example.com:443']";
             "" ] LF ] /\
  stdout (snd (mainAdminPrometheusGenerate
                 (Sample.reporting "2021-01-30T00-20-58Z") ["play"] start)) =
    stdout (snd (mainAdminPrometheusGenerate
                   (Sample.reporting "2022-01-01T00-00-00Z") ["play"] start)).
Proof. vm_compute. repeat split. Qed.

(** An unknown alias, whatever the signing method: status 1 and a
    diagnostic. *)
Example unknown_alias_ends_with_status_one :
  fst (mainAdminPrometheusGenerate Sample.unsigned ["nowhere"] start) = Exited 1 /\
  stdout (snd (mainAdminPrometheusGenerate Sample.unsigned ["nowhere"] start)) = [] /\
  length (stderr (snd (mainAdminPrometheusGenerate Sample.unsigned ["nowhere"] start))) = 1%nat.
Proof. vm_compute. repeat split. Qed.

(** ** The sample signing method decodes what it signs *)

Lemma strip_app (pre r : string) : Sample.strip pre (pre ++ r) = Some r.
Proof.
  induction pre as [|x pre IH]; [reflexivity|].
  rewrite append_cons. cbn [Sample.strip]. now rewrite Ascii.eqb_refl.
Qed.

Lemma read_bits_bits (n : positive) (r : string) :
  Sample.read_bits (Sample.bits n ++ "." ++ r) = Some (n, r).
Proof.
  induction n as [q IH | q IH |].
  - change (Sample.bits q~1 ++ "." ++ r) with (String "1" (Sample.bits q ++ "." ++ r)).
    cbn [Sample.read_bits]. rewrite IH. reflexivity.
  - change (Sample.bits q~0 ++ "." ++ r) with (String "0" (Sample.bits q ++ "." ++ r)).
    cbn [Sample.read_bits]. rewrite IH. reflexivity.
  - reflexivity.
Qed.

Lemma read_number_number (z : Z) (r : string) :
  Sample.read_number (Sample.number z ++ r) = Some (z, r).
Proof.
  destruct z as [|n|n].
  - reflexivity.
  - change (Sample.number (Z.pos n) ++ r)
      with (String "p" ((Sample.bits n ++ ".") ++ r)).
    rewrite append_assoc. cbn [Sample.read_number]. rewrite read_bits_bits. reflexivity.
  - change (Sample.number (Z.neg n) ++ r)
      with (String "n" ((Sample.bits n ++ ".") ++ r)).
    rewrite append_assoc. cbn [Sample.read_number]. rewrite read_bits_bits. reflexivity.
Qed.

Lemma parse_sign (t : jwtgo.Token) (key : list Byte.byte) (s : string) :
  Sample.sign t key = Ok s -> Sample.parse s key = Ok t.
Proof.
  unfold Sample.sign, Sample.parse.
  destruct (decide _) as [Ht|]; [|discriminate].
  intros H. injection H as <-.
  rewrite strip_app, read_number_number. now rewrite <- Ht.
Qed.

(** ** The bearer token *)

Lemma Unix_Add_whole_seconds (now : time.Instant) (seconds : Z) :
  time.Unix (time.Add now (seconds * time.Second)%Z) = (time.Unix now + seconds)%Z.
Proof.
  unfold time.Unix, time.Add. apply Z.div_add. discriminate.
Qed.

Lemma defaultPrometheusJWTExpiry_seconds :
  defaultPrometheusJWTExpiry = (100 * (365 * (24 * 3600)) * time.Second)%Z.
Proof. reflexivity. Qed.

(** The default validity fits the 64 bits of a [Duration]. *)
Lemma defaultPrometheusJWTExpiry_int64 :
  (0 < defaultPrometheusJWTExpiry < 2 ^ 63)%Z.
Proof. split; reflexivity. Qed.

Section Decoding.

Context (E : Collaborators).

(** A decoder of tokens under a key (the parser of the token library),
    of which only this is asked: it gives back the token that was signed
    when it is given the key that signed it. *)
Variable ParseWithClaims : string -> list Byte.byte -> result jwtgo.Token.

Hypothesis ParseWithClaims_SignedString :
  forall (t : jwtgo.Token) (key : list Byte.byte) (s : string),
    SignedString E t key = Ok s -> ParseWithClaims s key = Ok t.

(** C2.  For every account, secret (empty or not), issue time and
    validity, a token that was minted decodes under the same secret to
    claims whose subject is the account, whose issuer is [prometheus] and
    whose expiry is the issue time plus the validity, in seconds of the
    Unix epoch; the default validity is 100 years of 365 days, so that
    the default expiry is 3,153,600,000 seconds after the issue time. *)
Theorem minted_token_decodes (accessKey secretKey : string) (now : time.Instant)
    (validity : time.Duration) (token : string) :
  mint E accessKey secretKey now validity = Ok token ->
  (exists t : jwtgo.Token,
     ParseWithClaims token (list_byte_of_string secretKey) = Ok t /\
     jwtgo.Subject (jwtgo.Claims t) = accessKey /\
     jwtgo.Issuer (jwtgo.Claims t) = "prometheus" /\
     jwtgo.ExpiresAt (jwtgo.Claims t) = ((now + validity) / 1000000000)%Z) /\
  defaultPrometheusJWTExpiry = (100 * (365 * (24 * (3600 * 1000000000))))%Z /\
  time.Unix (time.Add now defaultPrometheusJWTExpiry) = (time.Unix now + 3153600000)%Z.
Proof.
  intros Hm. split; [|split].
  - unfold mint in Hm. apply ParseWithClaims_SignedString in Hm.
    eexists. split; [exact Hm|]. cbn. repeat split.
  - reflexivity.
  - rewrite defaultPrometheusJWTExpiry_seconds. apply Unix_Add_whole_seconds.
Qed.

End Decoding.

(** The theorem on the sample signing method and its decoder, for a
    validity of ninety seconds and nine tenths. *)
Lemma minted_token_decodes_sample :
  (exists t : jwtgo.Token,
     Sample.parse "kkkkkk.p110110101101010010101000000001.Q3AM3UQ867SPQQA43P2F"
       (list_byte_of_string "s3cret") = Ok t /\
     jwtgo.Subject (jwtgo.Claims t) = "Q3AM3UQ867SPQQA43P2F" /\
     jwtgo.Issuer (jwtgo.Claims t) = "prometheus" /\
     jwtgo.ExpiresAt (jwtgo.Claims t) =
       ((1612000000123456789 + 90900000000) / 1000000000)%Z) /\
  defaultPrometheusJWTExpiry = (100 * (365 * (24 * (3600 * 1000000000))))%Z /\
  time.Unix (time.Add 1612000000123456789%Z defaultPrometheusJWTExpiry) =
    (time.Unix 1612000000123456789%Z + 3153600000)%Z.
Proof.
  apply (minted_token_decodes Sample.usual Sample.parse parse_sign
           "Q3AM3UQ867SPQQA43P2F" "s3cret" 1612000000123456789%Z 90900000000%Z).
  vm_compute. reflexivity.
Defined.

(** ** Signing errors *)

Lemma bind_Returned {A B : Type} (m : M A) (f : A -> M B) (p p' : process) (b : B) :
  (m ≫= f) p = (Returned b, p') ->
  exists (a : A) (p1 : process), m p = (Returned a, p1) /\ f a p1 = (Returned b, p').
Proof.
  unfold mbind, M_bind. destruct (m p) as [[a | s | msg] p1]; intros H.
  - now exists a, p1.
  - discriminate.
  - discriminate.
Qed.

(** Once the token is signed, [generatePrometheusConfig] returns no
    error any more. *)
Lemma generate_signed_returns_nil (E : Collaborators) (args : list string) (p p' : process)
    (hostConfig : HostConfig) (u : url.URL) (token : string) (err : error) :
  mustGetHostConfig E (cleanAlias E (Args_Get0 args)) = Some hostConfig ->
  url_Parse E (URL hostConfig) = Ok u ->
  mint E (AccessKey hostConfig) (SecretKey hostConfig) (UTCNow E)
    defaultPrometheusJWTExpiry = Ok token ->
  generatePrometheusConfig E args p <> (Returned (Some err), p').
Proof.
  intros H2 H3 H4 H. unfold generatePrometheusConfig in H.
  apply bind_Returned in H as (_ & p1 & _ & H).
  rewrite H2, H3, H4 in H.
  destruct (newAdminClient E _) as [client | cerr].
  - apply bind_Returned in H as (_ & p2 & _ & H).
    destruct (go_pair _ _) as [info e].
    apply bind_Returned in H as (_ & p3 & _ & H).
    destruct (madmin.Servers info !! 0%nat) as [server|]; [|discriminate].
    apply bind_Returned in H as (doc & p4 & _ & H).
    apply bind_Returned in H as (_ & p5 & _ & H).
    discriminate.
  - apply bind_Returned in H as (_ & p2 & _ & H). discriminate.
Qed.

(** C5, as the code has it.  The handler has no test of its own on the
    secret: for every account, secret and issue time, the run stops at
    the credential exactly when the signing method returns an error for
    the bytes of the secret.  Then no credential exists,
    [generatePrometheusConfig] returns that error and the process is as
    it was: nothing was printed or stored.  An empty secret is signed
    with the empty key. *)
Theorem minting_fails_when_the_signer_does (E : Collaborators) (arg : string)
    (p : process) (hostConfig : HostConfig) (u : url.URL) :
  isValidAlias E (cleanAlias E arg) = true ->
  mustGetHostConfig E (cleanAlias E arg) = Some hostConfig ->
  url_Parse E (URL hostConfig) = Ok u ->
  (forall (err : error) (p' : process),
     generatePrometheusConfig E [arg] p = (Returned (Some err), p') <->
     SignedString E
       (jwtgo.NewWithClaims jwtgo.SigningMethodHS512
          (claims (AccessKey hostConfig) (UTCNow E) defaultPrometheusJWTExpiry))
       (list_byte_of_string (SecretKey hostConfig)) = Err err /\ p' = p) /\
  (SecretKey hostConfig = "" ->
   mint E (AccessKey hostConfig) (SecretKey hostConfig) (UTCNow E)
     defaultPrometheusJWTExpiry =
   SignedString E
     (jwtgo.NewWithClaims jwtgo.SigningMethodHS512
        (claims (AccessKey hostConfig) (UTCNow E) defaultPrometheusJWTExpiry)) []).
Proof.
  intros H1 H2 H3. split.
  - intros err p'. fold (mint E (AccessKey hostConfig) (SecretKey hostConfig) (UTCNow E)
                           defaultPrometheusJWTExpiry).
    split.
    + intros H.
      destruct (mint E (AccessKey hostConfig) (SecretKey hostConfig) (UTCNow E)
                  defaultPrometheusJWTExpiry) as [token | e] eqn:Hm.
      * exfalso. revert H.
        now apply generate_signed_returns_nil with hostConfig u token.
      * rewrite (generate_sign_error E [arg] hostConfig u e) in H by assumption.
        injection H as -> ->. now split.
    + intros [Hm ->]. now apply generate_sign_error with hostConfig u.
  - intros ->. reflexivity.
Qed.

(** The theorem on the run whose signing method is not available: the
    error of the signing method, and no other, is returned, and the
    process is as it was. *)
Lemma minting_fails_when_the_signer_does_sample :
  (forall (err : error) (p' : process),
     generatePrometheusConfig Sample.unsigned ["play"] start = (Returned (Some err), p') <->
     Sample.sign_unavailable
       (jwtgo.NewWithClaims jwtgo.SigningMethodHS512
          (claims "Q3AM3UQ867SPQQA43P2F" (UTCNow Sample.unsigned)
             defaultPrometheusJWTExpiry))
       (list_byte_of_string "zuf+tfteSlswRu7BJ86wekitnifILbZam1KYY3TG") = Err err /\
     p' = start) /\
  generatePrometheusConfig Sample.unsigned ["play"] start =
    (Returned (Some "the requested hash function is unavailable"), start).
Proof.
  pose proof (minting_fails_when_the_signer_does Sample.unsigned "play" start
                {| URL := "https://play.min.io:9000";
                   AccessKey := "Q3AM3UQ867SPQQA43P2F";
                   SecretKey := "zuf+tfteSlswRu7BJ86wekitnifILbZam1KYY3TG" |}
                {| url.Scheme := "https"; url.Host := "play.min.io:9000" |}
                eq_refl eq_refl eq_refl) as [H _].
  split; [exact H|].
  apply H. split; reflexivity.
Defined.

(** An empty secret does not make minting fail: with a signing method
    that takes every key, as an HMAC does, the alias whose secret key is
    empty gets a token, and the handler prints the document that carries
    it. *)
Lemma empty_secret_is_signed :
  mint Sample.keyless "Q3AM3UQ867SPQQA43P2F" "" (UTCNow Sample.keyless)
    defaultPrometheusJWTExpiry =
    Ok ".p00000000100100101011000000111000.Q3AM3UQ867SPQQA43P2F" /\
  fst (mainAdminPrometheusGenerate Sample.keyless ["play"] start) = Returned None /\
  stdout (snd (mainAdminPrometheusGenerate Sample.keyless ["play"] start)) =
    [ Join [ "scrape_configs:";
             "- job_name: minio-job";
             "  bearer_token: .p00000000100100101011000000111000.Q3AM3UQ867SPQQA43P2F";
             "  metrics_path: /minio/v2/metrics/cluster";
             "  scheme: https";
             "  static_configs:";
             "  - targets: ['play.min.io:9000']";
             "" ] LF ].
Proof. vm_compute. repeat split. Qed.

(** ** What the JSON renderer serializes *)

(** The JSON text of the current template filled with token [T], scheme
    [http] and host [play.min.io:9000] is the object of the whole first
    scrape configuration, not the array of its targets. *)
Lemma JSON_of_document_is_not_the_target_list :
  fst (PrometheusConfig_JSON
         (document defaultMetricsPath "T" "http" "play.min.io:9000") start) =
    Returned
      (Join [ "{";
              " " ++ JSON.quote "jobName" ++ ": " ++ JSON.quote "minio-job" ++ ",";
              " " ++ JSON.quote "bearerToken" ++ ": " ++ JSON.quote "T" ++ ",";
              " " ++ JSON.quote "metricsPath" ++ ": "
                  ++ JSON.quote "/minio/v2/metrics/cluster" ++ ",";
              " " ++ JSON.quote "scheme" ++ ": " ++ JSON.quote "http" ++ ",";
              " " ++ JSON.quote "staticConfigs" ++ ": [";
              "  {";
              "   " ++ JSON.quote "targets" ++ ": [";
              "    " ++ JSON.quote "play.min.io:9000";
              "   ]";
              "  }";
              " ]";
              "}" ] LF) /\
  fst (PrometheusConfig_JSON
         (document defaultMetricsPath "T" "http" "play.min.io:9000") start) <>
    Returned ("[" ++ LF ++ " " ++ DQ ++ "play.min.io:9000" ++ DQ ++ LF ++ "]").
Proof. split; [vm_compute; reflexivity | vm_compute; discriminate]. Qed.

(** C3, as the code has it.  Rendering a document in JSON mode
    serializes the whole first scrape configuration, with its job name,
    token, metrics path, scheme and static configurations, as JSON
    indented by one space a level, and nothing of the later scrape
    configurations.  The target list alone is what the JSON rendering of
    a static configuration serializes; for the one target
    [play.min.io:9000] that text is an opening bracket, a line with the
    quoted host after one space, and a closing bracket. *)
Theorem JSON_renders_first_scrape_config :
  (forall (sc : ScrapeConfig) (later : list ScrapeConfig) (p : process),
     PrometheusConfig_JSON {| ScrapeConfigs := sc :: later |} p =
       (Returned
          (JSON.encode "" " " 0
             (JSON.Obj
                [ ("jobName", JSON.Str (JobName sc));
                  ("bearerToken", JSON.Str (BearerToken sc));
                  ("metricsPath", JSON.Str (MetricsPath sc));
                  ("scheme", JSON.Str (Scheme sc));
                  ("staticConfigs",
                   JSON.Arr
                     (List.map
                        (fun t => JSON.Obj
                           [ ("targets", JSON.Arr (List.map JSON.Str (Targets t))) ])
                        (StaticConfigs sc))) ])), p)) /\
  (forall (t : StatConfig) (p : process),
     StatConfig_JSON t p =
       (Returned (JSON.encode "" " " 0 (JSON.Arr (List.map JSON.Str (Targets t)))), p)) /\
  (forall p : process,
     StatConfig_JSON {| Targets := [ "play.min.io:9000" ] |} p =
       (Returned ("[" ++ LF ++ " " ++ DQ ++ "play.min.io:9000" ++ DQ ++ LF ++ "]"), p)).
Proof.
  split; [|split].
  - intros sc later p. now apply PrometheusConfig_JSON_first.
  - intros t p. apply StatConfig_JSON_targets.
  - intros p. reflexivity.
Qed.

(** ** What the structured renderer shows *)

Lemma result_mapM_elem {A B : Type} (f : A -> result B) (l : list A) (ys : list B) (x : A) :
  result_mapM f l = Ok ys -> x ∈ l -> exists y : B, y ∈ ys /\ f x = Ok y.
Proof.
  revert ys. induction l as [|a l IH]; intros ys H Hx.
  - inversion Hx.
  - cbn in H. destruct (f a) as [b|] eqn:Hfa; [|discriminate].
    destruct (result_mapM f l) as [bs|]; [|discriminate].
    injection H as <-. apply elem_of_cons in Hx as [-> | Hx].
    + exists b. split; [apply elem_of_cons; now left | assumption].
    + destruct (IH bs eq_refl Hx) as (y & Hy & Hfx).
      exists y. split; [apply elem_of_cons; now right | assumption].
Qed.

Lemma Join_Contains (ys : list string) (sep y : string) :
  y ∈ ys -> Contains (Join ys sep) y.
Proof.
  induction ys as [|a [|b ys] IH]; intros Hy.
  - inversion Hy.
  - apply list_elem_of_singleton in Hy as ->. apply Contains_refl.
  - apply elem_of_cons in Hy as [-> | Hy].
    + change (Join (a :: b :: ys) sep) with (a ++ sep ++ Join (b :: ys) sep).
      apply Contains_app_l, Contains_refl.
    + change (Join (a :: b :: ys) sep) with (a ++ sep ++ Join (b :: ys) sep).
      apply Contains_app_r, Contains_app_r, IH, Hy.
Qed.

Lemma block_seq_Contains (col : nat) (items : list string) (y : string) :
  y ∈ items -> Contains (YAML.block_seq col items) y.
Proof.
  intros Hy. unfold YAML.block_seq.
  apply Contains_trans with (YAML.pad col ++ "- " ++ y).
  - apply Join_Contains. apply list_elem_of_In, in_map_iff.
    exists y. split; [reflexivity | now apply list_elem_of_In].
  - apply Contains_app_r, Contains_app_r, Contains_refl.
Qed.

Lemma result_bind_Ok {A B : Type} (m : result A) (f : A -> result B) (b : B) :
  m ≫= f = Ok b -> exists a : A, m = Ok a /\ f a = Ok b.
Proof.
  unfold mbind, result_bind. destruct m as [a|]; [|discriminate].
  intros H. now exists a.
Qed.

(** [Contains (a ++ b ++ ...) v], by looking for [v] among the parts. *)
Ltac among :=
  solve [ apply Contains_refl
        | eassumption
        | apply Contains_app_l; among
        | apply Contains_app_r; among ].

Section Shows.

Variable scalar : nat -> bool -> string -> result string.

Lemma flow_seq_shows (col : nat) (l : list string) (s host : string) :
  YAML.flow_seq scalar col l = Ok s -> host ∈ l ->
  exists r, scalar col true host = Ok r /\ Contains s r.
Proof.
  unfold YAML.flow_seq. intros H Hh.
  apply result_bind_Ok in H as (items & Hm & H). injection H as <-.
  destruct (result_mapM_elem _ _ _ _ Hm Hh) as (r & Hr & Hs).
  exists r. split; [assumption|].
  apply Contains_app_r, Contains_app_l. now apply Join_Contains.
Qed.

Lemma of_StatConfig_shows (col : nat) (t : StatConfig) (s host : string) :
  YAML.of_StatConfig scalar col t = Ok s -> host ∈ Targets t ->
  exists r, scalar col true host = Ok r /\ Contains s r.
Proof.
  unfold YAML.of_StatConfig. intros H Hh.
  apply result_bind_Ok in H as (f & Hf & H). injection H as <-.
  destruct (flow_seq_shows _ _ _ _ Hf Hh) as (r & Hr & Hc).
  exists r. split; [assumption | among].
Qed.

(** A string field with [omitempty]. *)
Lemma omitempty_field (col : nat) (key v t : string) :
  YAML.omitempty (String.eqb v "")
    (r ← scalar col false v; Ok (YAML.pad col ++ key ++ r ++ LF)) = Ok t ->
  shown scalar col false t v.
Proof.
  unfold YAML.omitempty. destruct (String.eqb_spec v "") as [Hv | Hv]; intros H.
  - now left.
  - apply result_bind_Ok in H as (r & Hr & H). injection H as <-.
    right. exists r. split; [assumption | among].
Qed.

Lemma shown_app_l (col : nat) (flow : bool) (s t v : string) :
  shown scalar col flow s v -> shown scalar col flow (s ++ t) v.
Proof.
  intros [-> | (r & Hr & Hc)]; [now left | right].
  exists r. split; [assumption | now apply Contains_app_l].
Qed.

Lemma shown_app_r (col : nat) (flow : bool) (s t v : string) :
  shown scalar col flow t v -> shown scalar col flow (s ++ t) v.
Proof.
  intros [-> | (r & Hr & Hc)]; [now left | right].
  exists r. split; [assumption | now apply Contains_app_r].
Qed.

Lemma of_ScrapeConfig_shows (col : nat) (sc : ScrapeConfig) (s : string) :
  YAML.of_ScrapeConfig scalar col sc = Ok s ->
  shown scalar col false s (JobName sc) /\
  shown scalar col false s (BearerToken sc) /\
  shown scalar col false s (MetricsPath sc) /\
  shown scalar col false s (Scheme sc) /\
  forall (st : StatConfig) (host : string),
    st ∈ StaticConfigs sc -> host ∈ Targets st -> shown scalar (col + 2) true s host.
Proof.
  unfold YAML.of_ScrapeConfig. intros H.
  apply result_bind_Ok in H as (job & Hjob & H).
  apply result_bind_Ok in H as (tok & Htok & H).
  apply result_bind_Ok in H as (path & Hpath & H).
  apply result_bind_Ok in H as (sch & Hsch & H).
  apply result_bind_Ok in H as (static & Hstatic & H).
  injection H as <-.
  apply omitempty_field in Hpath. apply omitempty_field in Hsch.
  split; [right; exists job; split; [assumption | among] |].
  split; [right; exists tok; split; [assumption | among] |].
  split; [do 7 apply shown_app_r; now apply shown_app_l |].
  split; [do 8 apply shown_app_r; now apply shown_app_l |].
  intros st host Hst Hh. do 9 apply shown_app_r.
  unfold YAML.omitempty in Hstatic.
  destruct (Nat.eqb_spec (length (StaticConfigs sc)) 0) as [Hle | Hle].
  - apply length_zero_iff_nil in Hle. rewrite Hle in Hst. inversion Hst.
  - apply result_bind_Ok in Hstatic as (items & Hm & H). injection H as <-.
    destruct (result_mapM_elem _ _ _ _ Hm Hst) as (y & Hy & Hfy).
    destruct (of_StatConfig_shows _ _ _ _ Hfy Hh) as (r & Hr & Hc).
    right. exists r. split; [assumption|].
    do 3 apply Contains_app_r.
    eapply Contains_trans; [apply block_seq_Contains, Hy | exact Hc].
Qed.

Lemma Marshal_shows (c : PrometheusConfig) (b : string) (sc : ScrapeConfig) :
  YAML.Marshal scalar c = Ok b -> sc ∈ ScrapeConfigs c ->
  shown scalar 2 false b (JobName sc) /\
  shown scalar 2 false b (BearerToken sc) /\
  shown scalar 2 false b (MetricsPath sc) /\
  shown scalar 2 false b (Scheme sc) /\
  forall (st : StatConfig) (host : string),
    st ∈ StaticConfigs sc -> host ∈ Targets st -> shown scalar 4 true b host.
Proof.
  unfold YAML.Marshal. intros H Hsc.
  destruct (Nat.eqb_spec (length (ScrapeConfigs c)) 0) as [Hle | Hle].
  - apply length_zero_iff_nil in Hle. rewrite Hle in Hsc. inversion Hsc.
  - apply result_bind_Ok in H as (items & Hm & H). injection H as <-.
    destruct (result_mapM_elem _ _ _ _ Hm Hsc) as (y & Hy & Hfy).
    apply of_ScrapeConfig_shows in Hfy as (H1 & H2 & H3 & H4 & H5).
    assert (Contains ("scrape_configs:" ++ LF ++ YAML.block_seq 0 items) y) as Hc.
    { do 2 apply Contains_app_r. now apply block_seq_Contains. }
    assert (forall col flow v, shown scalar col flow y v ->
              shown scalar col flow ("scrape_configs:" ++ LF ++ YAML.block_seq 0 items) v) as Hup.
    { intros col flow v [-> | (r & Hr & Hr')]; [now left | right].
      exists r. split; [assumption | now apply Contains_trans with y]. }
    repeat split; try now apply Hup.
    intros st host Hst Hh. apply Hup. now apply (H5 st host).
Qed.

End Shows.

(** C8, as the code has it.  For every document, the structured
    renderer recovers from a failure of the YAML serialization on the
    spot: it returns the text [error creating config string: ] followed
    by the error in place of the document, the process goes on, and
    [printMsg] prints that text.  When the serialization succeeds, the
    text returned has in it, as they are, the job name, the token, the
    metrics path and the scheme of every scrape configuration and every
    target of its static configurations that the YAML library writes
    unescaped; a value the library escapes is in the text in its escaped
    form. *)
Theorem structured_rendering_recovers_and_shows (E : Collaborators)
    (c : PrometheusConfig) (p : process) :
  (forall err : error,
     YAML.Marshal (yaml_scalar E) c = Err err ->
     PrometheusConfig_String E c p =
       (Returned ("error creating config string: " ++ err), p) /\
     (globalJSON E = false ->
      exists p' : process,
        printMsg E (H := PrometheusConfig_message E) c p = (Returned tt, p') /\
        stdout p' = (stdout p ++ [("error creating config string: " ++ err)%string])%list)) /\
  (forall b : string,
     YAML.Marshal (yaml_scalar E) c = Ok b ->
     exists s : string,
       PrometheusConfig_String E c p = (Returned s, p) /\
       forall sc : ScrapeConfig,
         sc ∈ ScrapeConfigs c ->
         (written_verbatim E (JobName sc) -> Contains s (JobName sc)) /\
         (written_verbatim E (BearerToken sc) -> Contains s (BearerToken sc)) /\
         (written_verbatim E (MetricsPath sc) -> Contains s (MetricsPath sc)) /\
         (written_verbatim E (Scheme sc) -> Contains s (Scheme sc)) /\
         forall (st : StatConfig) (host : string),
           st ∈ StaticConfigs sc -> host ∈ Targets st ->
           written_verbatim E host -> Contains s host).
Proof.
  split.
  - intros err Hm. split.
    + rewrite PrometheusConfig_String_total. now rewrite Hm.
    + intros Hj. eexists. unfold printMsg, mbind, M_bind. rewrite Hj. cbn.
      rewrite PrometheusConfig_String_total, Hm. split; reflexivity.
  - intros b Hm. eexists. split.
    + rewrite PrometheusConfig_String_total, Hm. reflexivity.
    + intros sc Hsc.
      destruct (Marshal_shows _ _ _ _ Hm Hsc) as (H1 & H2 & H3 & H4 & H5).
      assert (forall col flow v, shown (yaml_scalar E) col flow b v ->
                written_verbatim E v ->
                Contains (console.Colorize (isTerminal E) (Theme p) "yaml" b) v) as Hin.
      { intros col flow v [-> | (r & Hr & Hc)] Hv.
        - apply Contains_empty.
        - eapply Contains_trans; [apply Colorize_Contains|].
          eapply Contains_trans; [exact Hc|]. exact (Hv _ _ _ Hr). }
      repeat split; try (now apply Hin with 2%nat false).
      intros st host Hst Hh. apply Hin with 4%nat true. now apply (H5 st host).
Qed.

(** The theorem on the document of the spec's example: job [minio-job],
    path [/minio/v2/metrics/cluster], scheme [http], target
    [play.min.io:9000] and a token [T]; all five are in the text. *)
Lemma structured_rendering_of_the_example :
  exists s : string,
    PrometheusConfig_String Sample.usual
      (document "/minio/v2/metrics/cluster" "T" "http" "play.min.io:9000") start =
      (Returned s, start) /\
    Contains s "minio-job" /\ Contains s "T" /\
    Contains s "/minio/v2/metrics/cluster" /\ Contains s "http" /\
    Contains s "play.min.io:9000".
Proof.
  destruct (structured_rendering_recovers_and_shows Sample.usual
              (document "/minio/v2/metrics/cluster" "T" "http" "play.min.io:9000") start)
    as [_ H].
  destruct (H _ eq_refl) as (s & Hs & Hin).
  destruct (Hin _ (list_elem_of_here _ _)) as (H1 & H2 & H3 & H4 & H5).
  assert (forall v : string,
            (forall flow : bool,
               match Sample.scalar 0 flow v with
               | Ok r => containsb r v
               | Err _ => false
               end = true) ->
            written_verbatim Sample.usual v) as Hv.
  { intros v Hf col flow r Hr. specialize (Hf flow).
    change (yaml_scalar Sample.usual col flow v) with (Sample.scalar 0 flow v) in Hr.
    rewrite Hr in Hf. now apply containsb_Contains. }
  exists s. split; [exact Hs|].
  split; [apply H1, Hv; intros [|]; reflexivity|].
  split; [apply H2, Hv; intros [|]; reflexivity|].
  split; [apply H3, Hv; intros [|]; reflexivity|].
  split; [apply H4, Hv; intros [|]; reflexivity|].
  apply (H5 _ _ (list_elem_of_here _ _) (list_elem_of_here _ _)), Hv.
  intros [|]; reflexivity.
Defined.

(** The text of that document, line by line. *)
Example structured_text_of_the_example :
  fst (PrometheusConfig_String Sample.usual
         (document "/minio/v2/metrics/cluster" "T" "http" "play.min.io:9000") start) =
    Returned
      (Join [ "scrape_configs:";
              "- job_name: minio-job";
              "  bearer_token: T";
              "  metrics_path: /minio/v2/metrics/cluster";
              "  scheme: http";
              "  static_configs:";
              "  - targets: ['play.min.io:9000']";
              "" ] LF).
Proof. vm_compute. reflexivity. Qed.

(** A target with a single quote in it.  Inside the flow sequence of the
    targets a string with a colon goes between single quotes, and YAML
    doubles a single quote there: the serialization succeeds, and the
    text has the target in its quoted form [it''s:9000] and nowhere as
    it is. *)
Lemma quoted_target_is_not_verbatim :
  let text :=
    Join [ "scrape_configs:";
           "- job_name: minio-job";
           "  bearer_token: T";
           "  metrics_path: /minio/v2/metrics/cluster";
           "  scheme: http";
           "  static_configs:";
           "  - targets: ['it''s:9000']";
           "" ] LF in
  PrometheusConfig_String Sample.quoting
    (document "/minio/v2/metrics/cluster" "T" "http" "it's:9000") start =
    (Returned text, start) /\
  ~ Contains text "it's:9000".
Proof.
  cbv zeta. split.
  - vm_compute. reflexivity.
  - intros H. apply containsb_Contains in H. vm_compute in H. discriminate.
Qed.

(** With a YAML library that refuses the document, the handler still
    ends normally, having printed the error text as the document. *)
Example refused_document_is_printed_as_an_error :
  fst (mainAdminPrometheusGenerate Sample.refused ["play"] start) = Returned None /\
  stdout (snd (mainAdminPrometheusGenerate Sample.refused ["play"] start)) =
    [ "error creating config string: cannot marshal" ].
Proof. vm_compute. split; reflexivity. Qed.

(** * More of the file *)

(** ** The order behind the version test *)

Lemma lex_lt_trans (a b c : string) : lex_lt a b -> lex_lt b c -> lex_lt a c.
Proof.
  intros Hab. revert c. induction Hab as [y b | x y a b Hxy | x a b Hab IH];
    intros c Hbc; inversion Hbc; subst.
  - constructor.
  - constructor.
  - constructor. now apply N.lt_trans with (byte_of y).
  - now constructor.
  - now constructor.
  - apply lex_lt_next. now apply IH.
Qed.

(** X12.  The test of line 191 is monotone in the version: when a
    version gets the current template, every lexically later version gets
    it too, and when a version gets the legacy template, so does every
    earlier one.  A newer server never falls back to the legacy path. *)
Theorem version_gate_is_monotone (v1 v2 : string) :
  lex_lt v1 v2 ->
  (selectTemplate v1 = Current -> selectTemplate v2 = Current) /\
  (selectTemplate v2 = Legacy -> selectTemplate v1 = Legacy).
Proof.
  intros H12. unfold selectTemplate.
  destruct (less v2 cutover) eqn:H2.
  - apply less_lex_lt in H2.
    assert (less v1 cutover = true) as ->
      by (apply less_lex_lt; now apply lex_lt_trans with v2).
    split; congruence.
  - destruct (less v1 cutover); split; congruence.
Qed.

(** The theorem on a release of 2021 and a release of 2022. *)
Lemma version_gate_is_monotone_releases :
  (selectTemplate "2021-03-17T02-33-02Z" = Current ->
   selectTemplate "2022-01-01T00-00-00Z" = Current) /\
  (selectTemplate "2022-01-01T00-00-00Z" = Legacy ->
   selectTemplate "2021-03-17T02-33-02Z" = Legacy).
Proof.
  apply (version_gate_is_monotone "2021-03-17T02-33-02Z" "2022-01-01T00-00-00Z").
  apply less_lex_lt. reflexivity.
Defined.

(** X13.  A version that does not start with the digit 2 is placed by
    its first byte alone, whatever follows: below the digit 2 it gets the
    legacy template, above it (a letter, as in the tag of a development
    build) the current one.  A version with no byte at all gets the
    legacy template. *)
Theorem version_gate_first_byte :
  selectTemplate "" = Legacy /\
  forall (c : ascii) (rest : string),
    ((byte_of c < 50)%N -> selectTemplate (String c rest) = Legacy) /\
    ((50 < byte_of c)%N -> selectTemplate (String c rest) = Current).
Proof.
  split; [reflexivity|]. intros c rest. unfold selectTemplate, less, cutover.
  cbn [cmpstring]. change (byte_of "2") with 50%N.
  destruct (N.compare_spec (byte_of c) 50) as [Heq | Hlt | Hgt]; split; intros H;
    try reflexivity; lia.
Qed.

(** ** The first server decides *)

(** X5.  On a run that gets through, the document printed has the legacy
    metrics path exactly when the version of the first server of the
    reply is lexically below 2021-01-30T00-20-58Z, and the current path
    otherwise, whatever the other servers of the reply report: a cluster
    of mixed versions is placed by its first server. *)
Theorem first_server_version_picks_the_path (E : Collaborators) (arg : string)
    (p : process) (hostConfig : HostConfig) (u : url.URL) (token : string)
    (client : AdminClient E) (server : madmin.ServerProperties)
    (others : list madmin.ServerProperties) :
  reachable p ->
  isValidAlias E (cleanAlias E arg) = true ->
  mustGetHostConfig E (cleanAlias E arg) = Some hostConfig ->
  url_Parse E (URL hostConfig) = Ok u ->
  mint E (AccessKey hostConfig) (SecretKey hostConfig) (UTCNow E)
    defaultPrometheusJWTExpiry = Ok token ->
  newAdminClient E (cleanAlias E arg) = Ok client ->
  ServerInfo E client = Ok {| madmin.Servers := server :: others |} ->
  exists (p' : process) (path : string),
    mainAdminPrometheusGenerate E [arg] p = (Returned None, p') /\
    stdout p' =
      (stdout p ++
       [rendering E (Theme (themed p))
          (one_target "minio-job" token path (url.Scheme u) (url.Host u))])%list /\
    (lex_lt (madmin.Version server) "2021-01-30T00-20-58Z" ->
     path = "/minio/prometheus/metrics") /\
    (~ lex_lt (madmin.Version server) "2021-01-30T00-20-58Z" ->
     path = "/minio/v2/metrics/cluster").
Proof.
  intros Hp H1 H2 H3 H4 H5 H6.
  rewrite main_one_argument.
  rewrite (generate_prints E [arg] (themed p) hostConfig u token client
             {| madmin.Servers := server :: others |} server);
    try assumption; try reflexivity.
  2:{ apply themed_consistent, reachable_consistent, Hp. }
  eexists. exists (path_of (selectTemplate (madmin.Version server))).
  split; [reflexivity|]. split; [reflexivity|].
  unfold selectTemplate. fold cutover. rewrite <- less_lex_lt.
  destruct (less (madmin.Version server) cutover); split; intros H;
    try reflexivity; congruence.
Qed.

(** The theorem on a cluster whose first server is older than the cutover
    and whose second is newer: the legacy path is printed. *)
Lemma first_server_version_picks_the_path_mixed :
  exists (p' : process) (path : string),
    mainAdminPrometheusGenerate
      (Sample.serving [ {| madmin.Version := "2020-01-01T00-00-00Z" |};
                        {| madmin.Version := "2022-01-01T00-00-00Z" |} ])
      ["play"] start = (Returned None, p') /\
    stdout p' =
      (stdout start ++
       [rendering
          (Sample.serving [ {| madmin.Version := "2020-01-01T00-00-00Z" |};
                            {| madmin.Version := "2022-01-01T00-00-00Z" |} ])
          (Theme (themed start))
          (one_target "minio-job"
             "kkkkkkkkkkkkkkkkkkkkkkkkkkkkkkkkkkkkkkkk.p00000000100100101011000000111000.Q3AM3UQ867SPQQA43P2F"
             path "https" "play.min.io:9000")])%list /\
    (lex_lt "2020-01-01T00-00-00Z" "2021-01-30T00-20-58Z" ->
     path = "/minio/prometheus/metrics") /\
    (~ lex_lt "2020-01-01T00-00-00Z" "2021-01-30T00-20-58Z" ->
     path = "/minio/v2/metrics/cluster").
Proof.
  apply (first_server_version_picks_the_path
           (Sample.serving [ {| madmin.Version := "2020-01-01T00-00-00Z" |};
                             {| madmin.Version := "2022-01-01T00-00-00Z" |} ])
           "play" start
           {| URL := "https://play.min.io:9000";
              AccessKey := "Q3AM3UQ867SPQQA43P2F";
              SecretKey := "zuf+tfteSlswRu7BJ86wekitnifILbZam1KYY3TG" |}
           {| url.Scheme := "https"; url.Host := "play.min.io:9000" |}
           "kkkkkkkkkkkkkkkkkkkkkkkkkkkkkkkkkkkkkkkk.p00000000100100101011000000111000.Q3AM3UQ867SPQQA43P2F"
           "play"
           {| madmin.Version := "2020-01-01T00-00-00Z" |}
           [ {| madmin.Version := "2022-01-01T00-00-00Z" |} ]);
    try reflexivity.
  apply reachable_start.
Defined.

(** ** A reply without servers *)

(** X6.  When the server information arrives without a single server,
    line 191 indexes the first one all the same: the handler panics with
    an index out of range, after the token was signed and the client
    made, with nothing printed, no diagnostic and the package variables
    as they were; the process ends with status 2. *)
Theorem empty_server_list_panics (E : Collaborators) (arg : string) (p : process)
    (hostConfig : HostConfig) (u : url.URL) (token : string)
    (client : AdminClient E) :
  isValidAlias E (cleanAlias E arg) = true ->
  mustGetHostConfig E (cleanAlias E arg) = Some hostConfig ->
  url_Parse E (URL hostConfig) = Ok u ->
  mint E (AccessKey hostConfig) (SecretKey hostConfig) (UTCNow E)
    defaultPrometheusJWTExpiry = Ok token ->
  newAdminClient E (cleanAlias E arg) = Ok client ->
  ServerInfo E client = Ok {| madmin.Servers := [] |} ->
  mainAdminPrometheusGenerate E [arg] p =
    (Panicked "runtime error: index out of range [0] with length 0", themed p) /\
  exitStatus (Panicked "runtime error: index out of range [0] with length 0") = 2%Z /\
  stdout (themed p) = stdout p /\ stderr (themed p) = stderr p /\
  legacyConfig (themed p) = legacyConfig p /\
  defaultConfig (themed p) = defaultConfig p.
Proof.
  intros H1 H2 H3 H4 H5 H6. rewrite main_one_argument.
  rewrite (generate_no_server E [arg] hostConfig u token client
             {| madmin.Servers := [] |}); try assumption; try reflexivity.
  repeat split.
Qed.

(** The theorem on a cluster that reports no server. *)
Lemma empty_server_list_panics_sample :
  mainAdminPrometheusGenerate (Sample.serving []) ["play"] start =
    (Panicked "runtime error: index out of range [0] with length 0", themed start) /\
  exitStatus (Panicked "runtime error: index out of range [0] with length 0") = 2%Z /\
  stdout (themed start) = stdout start /\ stderr (themed start) = stderr start /\
  legacyConfig (themed start) = legacyConfig start /\
  defaultConfig (themed start) = defaultConfig start.
Proof.
  apply (empty_server_list_panics (Sample.serving []) "play" start
           {| URL := "https://play.min.io:9000";
              AccessKey := "Q3AM3UQ867SPQQA43P2F";
              SecretKey := "zuf+tfteSlswRu7BJ86wekitnifILbZam1KYY3TG" |}
           {| url.Scheme := "https"; url.Host := "play.min.io:9000" |}
           "kkkkkkkkkkkkkkkkkkkkkkkkkkkkkkkkkkkkkkkk.p00000000100100101011000000111000.Q3AM3UQ867SPQQA43P2F"
           "play");
    reflexivity.
Defined.

(** ** The arguments *)

(** X7.  With no argument, or with more than one, the handler has set
    the colour of tag [yaml] and then stops at the syntax check of line
    214: it shows the usage and exits with status 1 before the alias is
    looked at.  Nothing is printed, the package variables are as they
    were, and the run is the same whatever the collaborators are. *)
Theorem wrong_argument_count_exits_first (E : Collaborators) (args : list string)
    (p : process) :
  length args <> 1%nat ->
  exists (p' : process),
    mainAdminPrometheusGenerate E args p = (Exited 1, p') /\
    stdout p' = stdout p /\
    length (stderr p') = S (length (stderr p)) /\
    legacyConfig p' = legacyConfig p /\ defaultConfig p' = defaultConfig p /\
    Theme p' = <["yaml" := console.color_New console.FgGreen]> (Theme p) /\
    forall E' : Collaborators,
      mainAdminPrometheusGenerate E' args p = (Exited 1, p').
Proof.
  intros H.
  assert (forall E0 : Collaborators,
            mainAdminPrometheusGenerate E0 args p =
              fatal "USAGE: mc admin prometheus generate TARGET" (themed p)) as Hrun.
  { intros E0.
    unfold mainAdminPrometheusGenerate, checkAdminPrometheusSyntax, mbind, M_bind.
    cbn. fold (themed p).
    destruct (Nat.eqb_spec (length args) 1) as [Heq|_]; [contradiction | reflexivity]. }
  eexists. split; [apply Hrun|]. cbn.
  repeat split; try apply Hrun.
  rewrite length_app. cbn. lia.
Qed.

(** The theorem on a run with two arguments. *)
Lemma wrong_argument_count_exits_first_two :
  exists (p' : process),
    mainAdminPrometheusGenerate Sample.usual ["play"; "other"] start = (Exited 1, p') /\
    stdout p' = stdout start /\
    length (stderr p') = S (length (stderr start)) /\
    legacyConfig p' = legacyConfig start /\ defaultConfig p' = defaultConfig start /\
    Theme p' = <["yaml" := console.color_New console.FgGreen]> (Theme start) /\
    forall E' : Collaborators,
      mainAdminPrometheusGenerate E' ["play"; "other"] start = (Exited 1, p').
Proof.
  apply (wrong_argument_count_exits_first Sample.usual ["play"; "other"] start).
  discriminate.
Defined.

(** ** The ways a run ends *)

Lemma handler_verdict (E : Collaborators) (args : list string) :
  exists (o : outcome (option error)) (fill : option (template * PrometheusConfig))
         (out diag : list string),
    verdict o fill out diag /\
    forall p : process,
      consistent p ->
      mainAdminPrometheusGenerate E args p = (o, after fill out diag p).
Proof.
  assert (forall msg,
            (forall p, mainAdminPrometheusGenerate E args p = fatal msg (themed p)) ->
            exists o fill out diag,
              verdict o fill out diag /\
              forall p, consistent p ->
                mainAdminPrometheusGenerate E args p = (o, after fill out diag p))
    as Hfatal.
  { intros msg H. exists (Exited 1), None, [], [msg]. split; [constructor|].
    intros p _. now rewrite H, fatal_after. }
  destruct args as [|arg [|arg2 rest]].
  - destruct (main_usage E []) as [msg H]; [discriminate|]. now apply Hfatal with msg.
  - assert (forall msg,
              (forall q, generatePrometheusConfig E [arg] q = fatal msg q) ->
              forall p, mainAdminPrometheusGenerate E [arg] p = fatal msg (themed p))
      as Hgen.
    { intros msg H p. now rewrite main_one_argument, H. }
    assert (forall err,
              (forall q, generatePrometheusConfig E [arg] q = (Returned (Some err), q)) ->
              exists o fill out diag,
                verdict o fill out diag /\
                forall p, consistent p ->
                  mainAdminPrometheusGenerate E [arg] p = (o, after fill out diag p))
      as Hdrop.
    { intros err H. exists (Returned None), None, [], []. split; [constructor|].
      intros p _. now rewrite main_one_argument, H, themed_after. }
    destruct (isValidAlias E (cleanAlias E arg)) eqn:H1.
    2:{ destruct (generate_invalid_alias E [arg] H1) as [msg H].
        apply Hfatal with msg. now apply Hgen. }
    destruct (mustGetHostConfig E (cleanAlias E arg)) as [hc|] eqn:H2.
    2:{ destruct (generate_unknown_alias E [arg] H1 H2) as [msg H].
        apply Hfatal with msg. now apply Hgen. }
    destruct (url_Parse E (URL hc)) as [u|err] eqn:H3.
    2:{ apply (Hdrop err). now apply generate_url_error with hc. }
    destruct (mint E (AccessKey hc) (SecretKey hc) (UTCNow E) defaultPrometheusJWTExpiry)
      as [token|err] eqn:H4.
    2:{ apply (Hdrop err). now apply generate_sign_error with hc u. }
    destruct (newAdminClient E (cleanAlias E arg)) as [client|cerr] eqn:H5.
    2:{ destruct (generate_client_error E [arg] hc u token cerr H1 H2 H3 H4 H5) as [msg H].
        apply Hfatal with msg. now apply Hgen. }
    destruct (ServerInfo E client) as [info|e] eqn:H6.
    2:{ destruct (generate_info_error E [arg] hc u token client e H1 H2 H3 H4 H5 H6)
          as [msg H].
        apply Hfatal with msg. now apply Hgen. }
    destruct (madmin.Servers info !! 0%nat) as [server|] eqn:H7.
    2:{ exists (Panicked index_out_of_range), None, [], []. split; [constructor|].
        intros p _. rewrite main_one_argument.
        rewrite (generate_no_server E [arg] hc u token client info H1 H2 H3 H4 H5 H6 H7).
        now rewrite themed_after. }
    set (w := selectTemplate (madmin.Version server)).
    set (doc := document (path_of w) token (url.Scheme u) (url.Host u)).
    exists (Returned None), (Some (w, doc)),
           [rendering E {["yaml" := console.color_New console.FgGreen]} doc], [].
    split; [constructor|].
    intros p Hp. rewrite main_one_argument.
    rewrite (generate_prints E [arg] (themed p) hc u token client info server);
      try assumption.
    fold w. fold doc. unfold themed at 2 3 4 5. cbn [Theme stdout stderr].
    rewrite rendering_themed. unfold after. rewrite app_nil_r.
    destruct w; reflexivity.
  - destruct (main_usage E (arg :: arg2 :: rest)) as [msg H]; [discriminate|].
    now apply Hfatal with msg.
Qed.

(** X8.  In a process, every run of the handler ends in one of four ways
    and in no other: it exits with status 1 after one diagnostic, with
    nothing printed; it returns nil with nothing printed and no
    diagnostic (an error that [generatePrometheusConfig] returned was
    dropped); it panics with an index out of range, with nothing printed;
    or it returns nil after printing exactly one text.  Only in the last
    case is a package variable written, and then only the one that was
    picked, which holds a one-target document for job [minio-job] with
    its own metrics path; the other variable is never touched.  The
    handler never returns an error. *)
Theorem handler_outcomes (E : Collaborators) (args : list string) (p : process) :
  reachable p ->
  exists (o : outcome (option error)) (p' : process),
    mainAdminPrometheusGenerate E args p = (o, p') /\
    ((o = Exited 1 /\
      stdout p' = stdout p /\ length (stderr p') = S (length (stderr p)) /\
      legacyConfig p' = legacyConfig p /\ defaultConfig p' = defaultConfig p) \/
     (o = Returned None /\
      stdout p' = stdout p /\ stderr p' = stderr p /\
      legacyConfig p' = legacyConfig p /\ defaultConfig p' = defaultConfig p) \/
     (o = Panicked "runtime error: index out of range [0] with length 0" /\
      stdout p' = stdout p /\ stderr p' = stderr p /\
      legacyConfig p' = legacyConfig p /\ defaultConfig p' = defaultConfig p) \/
     (o = Returned None /\
      stderr p' = stderr p /\
      exists (w : template) (text token scheme host : string),
        stdout p' = (stdout p ++ [text])%list /\
        config w p' = one_target "minio-job" token (path_of w) scheme host /\
        config (other w) p' = config (other w) p)).
Proof.
  intros Hp. apply reachable_consistent in Hp.
  destruct (handler_verdict E args) as (o & fill & out & diag & Hv & H).
  exists o, (after fill out diag p). split; [now apply H|].
  destruct Hv as [msg | | | w token scheme host text]; unfold after; cbn.
  - left. rewrite app_nil_r, length_app. cbn. repeat split. lia.
  - right; left. rewrite !app_nil_r. repeat split.
  - right; right; left. rewrite !app_nil_r. repeat split.
  - right; right; right. rewrite app_nil_r. repeat split.
    exists w, text, token, scheme, host. destruct w; repeat split.
Qed.

(** The theorem at the start of a process, for the usual run. *)
Lemma handler_outcomes_usual :
  exists (o : outcome (option error)) (p' : process),
    mainAdminPrometheusGenerate Sample.usual ["play"] start = (o, p') /\
    ((o = Exited 1 /\
      stdout p' = stdout start /\ length (stderr p') = S (length (stderr start)) /\
      legacyConfig p' = legacyConfig start /\ defaultConfig p' = defaultConfig start) \/
     (o = Returned None /\
      stdout p' = stdout start /\ stderr p' = stderr start /\
      legacyConfig p' = legacyConfig start /\ defaultConfig p' = defaultConfig start) \/
     (o = Panicked "runtime error: index out of range [0] with length 0" /\
      stdout p' = stdout start /\ stderr p' = stderr start /\
      legacyConfig p' = legacyConfig start /\ defaultConfig p' = defaultConfig start) \/
     (o = Returned None /\
      stderr p' = stderr start /\
      exists (w : template) (text token scheme host : string),
        stdout p' = (stdout start ++ [text])%list /\
        config w p' = one_target "minio-job" token (path_of w) scheme host /\
        config (other w) p' = config (other w) start)).
Proof.
  apply (handler_outcomes Sample.usual ["play"] start). apply reachable_start.
Defined.

(** X14 on an alias whose URL does not parse. *)
Lemma returned_errors_are_dropped_unparsed :
  mainAdminPrometheusGenerate Sample.unparsed ["play"] start =
    (Returned None, themed start) /\
  exitStatus (Returned None) = 0%Z.
Proof.
  apply (returned_errors_are_dropped Sample.unparsed "play" start).
  apply (url_failed Sample.unparsed "play"
           {| URL := "https://[::1";
              AccessKey := "Q3AM3UQ867SPQQA43P2F";
              SecretKey := "zuf+tfteSlswRu7BJ86wekitnifILbZam1KYY3TG" |}
           "parse error");
    reflexivity.
Defined.

(** ** The assignments and the bounds of the slices *)

(** X9.  The three assignments of lines 192-194 index three slices and
    are not one step.  On a variable with no scrape configuration the
    first assignment panics and nothing is written.  On a variable whose
    first scrape configuration has no static configuration, or whose
    first static configuration has no target, the third assignment
    panics after the token and the scheme were written: the variable
    keeps them.  Otherwise all three succeed, and change the token and
    the scheme of the first scrape configuration and the first target of
    its first static configuration, keeping every other scrape
    configuration, static configuration and target. *)
Theorem assemble_index_bounds (w : template) (token scheme host : string) (p : process) :
  match ScrapeConfigs (config w p) with
  | [] =>
      assemble w token scheme host p =
        (Panicked "runtime error: index out of range [0] with length 0", p)
  | sc :: scs =>
      let written (static : list StatConfig) :=
        {| ScrapeConfigs :=
             {| JobName := JobName sc; BearerToken := token;
                MetricsPath := MetricsPath sc; Scheme := scheme;
                StaticConfigs := static |} :: scs |} in
      match StaticConfigs sc with
      | [] =>
          assemble w token scheme host p =
            (Panicked "runtime error: index out of range [0] with length 0",
             store w (written []) p)
      | st :: sts =>
          match Targets st with
          | [] =>
              assemble w token scheme host p =
                (Panicked "runtime error: index out of range [0] with length 0",
                 store w (written (st :: sts)) p)
          | _ :: ts =>
              assemble w token scheme host p =
                (Returned (written ({| Targets := host :: ts |} :: sts)),
                 store w (written ({| Targets := host :: ts |} :: sts)) p)
          end
      end
  end.
Proof.
  unfold assemble, assign, load, mbind, M_bind.
  destruct (config w p) as [[|sc scs]] eqn:Hc; cbn; [reflexivity|].
  rewrite config_store. cbn. rewrite config_store. cbn.
  destruct sc as [job tok path sch [|[[|t0 ts]] sts]]; cbn;
    rewrite ?store_store, ?config_store; reflexivity.
Qed.

(** The assignments on a current variable without static configuration:
    the panic leaves the token and the scheme behind. *)
Example assemble_on_a_bare_variable :
  fst (assemble Current "T" "http" "play.min.io:9000" Sample.bare) =
    Panicked "runtime error: index out of range [0] with length 0" /\
  defaultConfig (snd (assemble Current "T" "http" "play.min.io:9000" Sample.bare)) =
    {| ScrapeConfigs :=
         [ {| JobName := "minio-job"; BearerToken := "T";
              MetricsPath := "/minio/v2/metrics/cluster"; Scheme := "http";
              StaticConfigs := [] |} ] |}.
Proof. split; reflexivity. Qed.

(** ** The renderers of a static configuration *)

Lemma StatConfig_String_total (E : Collaborators) (t : StatConfig) (p : process) :
  StatConfig_String E t p =
    (Returned
       match YAML.Marshal_StatConfig (yaml_scalar E) t with
       | Err err => "error creating config string: " ++ err
       | Ok b => console.Colorize (isTerminal E) (Theme p) "yaml" b
       end, p).
Proof.
  unfold StatConfig_String. destruct (YAML.Marshal_StatConfig _ t); reflexivity.
Qed.

Lemma encode_targets_shows (l : list string) (host : string) :
  host ∈ l ->
  Contains (JSON.encode "" " " 0 (JSON.of_Targets l)) (JSON.quote host).
Proof.
  intros Hh. destruct l as [|a l]; [inversion Hh|].
  unfold JSON.of_Targets.
  change (JSON.encode "" " " 0 (JSON.Arr (List.map JSON.Str (a :: l))))
    with ("[" ++ JSON.newline "" " " 1
              ++ Join (List.map (JSON.encode "" " " 1) (List.map JSON.Str (a :: l)))
                   ("," ++ JSON.newline "" " " 1)
              ++ JSON.newline "" " " 0 ++ "]").
  do 2 apply Contains_app_r. apply Contains_app_l. apply Join_Contains.
  apply list_elem_of_In, in_map_iff. exists (JSON.Str host).
  split; [reflexivity|]. apply in_map_iff. exists host.
  split; [reflexivity | now apply list_elem_of_In].
Qed.

(** X10.  The two renderers of a static configuration (lines 92-105).
    The structured one recovers from a failure of the YAML serialization
    by returning the error text, and on success its text has in it every
    target that the YAML library writes unescaped.  The JSON one, unlike
    the JSON renderer of a document, indexes nothing: it returns a text
    for every static configuration, and the text has in it every
    target, JSON-quoted. *)
Theorem StatConfig_rendering (E : Collaborators) (t : StatConfig) (p : process) :
  (forall err : error,
     YAML.Marshal_StatConfig (yaml_scalar E) t = Err err ->
     StatConfig_String E t p =
       (Returned ("error creating config string: " ++ err), p)) /\
  (forall b : string,
     YAML.Marshal_StatConfig (yaml_scalar E) t = Ok b ->
     exists s : string,
       StatConfig_String E t p = (Returned s, p) /\
       forall host : string,
         host ∈ Targets t -> written_verbatim E host -> Contains s host) /\
  (exists s : string,
     StatConfig_JSON t p = (Returned s, p) /\
     forall host : string, host ∈ Targets t -> Contains s (JSON.quote host)).
Proof.
  split; [|split].
  - intros err Hm. now rewrite StatConfig_String_total, Hm.
  - intros b Hm. eexists. split.
    + rewrite StatConfig_String_total, Hm. reflexivity.
    + intros host Hh Hv.
      destruct (of_StatConfig_shows _ _ _ _ _ Hm Hh) as (r & Hr & Hc).
      eapply Contains_trans; [apply Colorize_Contains|].
      eapply Contains_trans; [exact Hc|]. exact (Hv _ _ _ Hr).
  - eexists. split; [apply StatConfig_JSON_targets|].
    intros host Hh. now apply encode_targets_shows.
Qed.

(** The theorem on a static configuration of two targets. *)
Lemma StatConfig_rendering_two_targets :
  exists s : string,
    StatConfig_String Sample.usual {| Targets := ["a.example:9000"; "b.example:9000"] |}
      start = (Returned s, start) /\
    Contains s "a.example:9000" /\ Contains s "b.example:9000".
Proof.
  destruct (StatConfig_rendering Sample.usual
              {| Targets := ["a.example:9000"; "b.example:9000"] |} start)
    as (_ & H & _).
  destruct (H _ eq_refl) as (s & Hs & Hin).
  assert (forall v : string,
            (forall flow : bool,
               match Sample.scalar 0 flow v with
               | Ok r => containsb r v
               | Err _ => false
               end = true) ->
            written_verbatim Sample.usual v) as Hv.
  { intros v Hf col flow r Hr. specialize (Hf flow).
    change (yaml_scalar Sample.usual col flow v) with (Sample.scalar 0 flow v) in Hr.
    rewrite Hr in Hf. now apply containsb_Contains. }
  exists s. split; [exact Hs|]. split.
  - apply Hin; [apply list_elem_of_here | apply Hv; intros [|]; reflexivity].
  - apply Hin; [apply list_elem_of_further, list_elem_of_here
               | apply Hv; intros [|]; reflexivity].
Defined.

(** ** The token of the printed document *)

Section PrintedToken.

Context (E : Collaborators).

Variable ParseWithClaims : string -> list Byte.byte -> result jwtgo.Token.

Hypothesis ParseWithClaims_SignedString :
  forall (t : jwtgo.Token) (key : list Byte.byte) (s : string),
    SignedString E t key = Ok s -> ParseWithClaims s key = Ok t.

(** X11.  On a run that gets through, the document that is printed and
    left in the picked variable carries as its bearer token the token
    signed at line 180, and that token decodes, under the secret key of
    the alias, to claims whose subject is the access key of the alias,
    whose issuer is [prometheus] and whose expiry is 3,153,600,000
    seconds (100 years of 365 days) after the second of the clock
    reading. *)
Theorem printed_token_decodes (arg : string) (p : process) (hostConfig : HostConfig)
    (u : url.URL) (token : string) (client : AdminClient E)
    (info : madmin.InfoMessage) (server : madmin.ServerProperties) :
  reachable p ->
  isValidAlias E (cleanAlias E arg) = true ->
  mustGetHostConfig E (cleanAlias E arg) = Some hostConfig ->
  url_Parse E (URL hostConfig) = Ok u ->
  mint E (AccessKey hostConfig) (SecretKey hostConfig) (UTCNow E)
    defaultPrometheusJWTExpiry = Ok token ->
  newAdminClient E (cleanAlias E arg) = Ok client ->
  ServerInfo E client = Ok info ->
  madmin.Servers info !! 0%nat = Some server ->
  exists (p' : process) (sc : ScrapeConfig) (t : jwtgo.Token),
    mainAdminPrometheusGenerate E [arg] p = (Returned None, p') /\
    ScrapeConfigs (config (selectTemplate (madmin.Version server)) p') = [sc] /\
    stdout p' =
      (stdout p ++
       [rendering E (Theme (themed p)) {| ScrapeConfigs := [sc] |}])%list /\
    ParseWithClaims (BearerToken sc) (list_byte_of_string (SecretKey hostConfig)) = Ok t /\
    jwtgo.Subject (jwtgo.Claims t) = AccessKey hostConfig /\
    jwtgo.Issuer (jwtgo.Claims t) = "prometheus" /\
    jwtgo.ExpiresAt (jwtgo.Claims t) = (UTCNow E / 1000000000 + 3153600000)%Z.
Proof.
  intros Hp H1 H2 H3 H4 H5 H6 H7.
  rewrite main_one_argument.
  rewrite (generate_prints E [arg] (themed p) hostConfig u token client info server);
    try assumption.
  2:{ apply themed_consistent, reachable_consistent, Hp. }
  pose proof H4 as Hm. unfold mint in Hm. apply ParseWithClaims_SignedString in Hm.
  eexists.
  exists {| JobName := defaultJobName; BearerToken := token;
            MetricsPath := path_of (selectTemplate (madmin.Version server));
            Scheme := url.Scheme u;
            StaticConfigs := [ {| Targets := [ url.Host u ] |} ] |}.
  eexists.
  split; [reflexivity|].
  split; [destruct (selectTemplate (madmin.Version server)); reflexivity|].
  split; [reflexivity|].
  split; [exact Hm|]. cbn.
  split; [reflexivity|]. split; [reflexivity|].
  rewrite defaultPrometheusJWTExpiry_seconds, Unix_Add_whole_seconds. reflexivity.
Qed.

End PrintedToken.

(** The theorem on the usual run, with the sample signing method and its
    decoder. *)
Lemma printed_token_decodes_usual :
  exists (p' : process) (sc : ScrapeConfig) (t : jwtgo.Token),
    mainAdminPrometheusGenerate Sample.usual ["play"] start = (Returned None, p') /\
    ScrapeConfigs (config (selectTemplate "2022-01-01T00-00-00Z") p') = [sc] /\
    stdout p' =
      (stdout start ++
       [rendering Sample.usual (Theme (themed start)) {| ScrapeConfigs := [sc] |}])%list /\
    Sample.parse (BearerToken sc)
      (list_byte_of_string "zuf+tfteSlswRu7BJ86wekitnifILbZam1KYY3TG") = Ok t /\
    jwtgo.Subject (jwtgo.Claims t) = "Q3AM3UQ867SPQQA43P2F" /\
    jwtgo.Issuer (jwtgo.Claims t) = "prometheus" /\
    jwtgo.ExpiresAt (jwtgo.Claims t) =
      (UTCNow Sample.usual / 1000000000 + 3153600000)%Z.
Proof.
  apply (printed_token_decodes Sample.usual Sample.parse parse_sign "play" start
           {| URL := "https://play.min.io:9000";
              AccessKey := "Q3AM3UQ867SPQQA43P2F";
              SecretKey := "zuf+tfteSlswRu7BJ86wekitnifILbZam1KYY3TG" |}
           {| url.Scheme := "https"; url.Host := "play.min.io:9000" |}
           "kkkkkkkkkkkkkkkkkkkkkkkkkkkkkkkkkkkkkkkk.p00000000100100101011000000111000.Q3AM3UQ867SPQQA43P2F"
           "play"
           {| madmin.Servers := [ {| madmin.Version := "2022-01-01T00-00-00Z" |} ] |}
           {| madmin.Version := "2022-01-01T00-00-00Z" |});
    try reflexivity.
  apply reachable_start.
Defined.
